(** * The course notebooks of 2019-summer-main, embedded in Rocq

    Two notebooks carry code of their own:

    - [MLFairness.ipynb] defines [load_embeddings], which reads a text file of
      word vectors into a pandas [DataFrame];
    - the convolutional-network notebook defines [run], which assembles a Keras
      model from its hyperparameters, compiles it, prints the hyperparameters
      and fits the model, and then calls [run] nine times with literal
      arguments.

    The embedding is shallow.  Python values become Rocq values (a [str] is
    the list of its code points, an [int] is a [Z], a [float] literal is a
    binary64 [float]), a raised exception is the [Raise] branch of [result],
    and the calls [run] makes into Keras are recorded, in order, in an output
    trace.  What the libraries compute (convolution, training, the decimal
    reading of [float(x)]) is outside the notebooks and is not modelled. *)

From Stdlib Require Import String Ascii.
From Stdlib Require Import List NArith ZArith Lia Bool.
From Stdlib Require Import Floats.PrimFloat.
From Stdlib Require Uint63.
Import ListNotations.

#[local] Set Warnings "-inexact-float,-register-all".
#[local] Open Scope N_scope.

(** ** Python: exceptions and text *)

Module Python.

(** The exception classes that the two notebooks can meet. *)
Inductive exception : Set :=
| FileNotFoundError
| ValueError
| IndexError
| NameError
| PermissionError
| IsADirectoryError
| UnicodeDecodeError
| OSError.

(** The outcome of evaluating an expression: a value, or a raised exception. *)
Inductive result (A : Type) : Type :=
| Ok (a : A)
| Raise (e : exception).

Arguments Ok {A} a.
Arguments Raise {A} e.

Definition bind {A B : Type} (c : result A) (k : A -> result B) : result B :=
  match c with
  | Ok a => k a
  | Raise e => Raise e
  end.

Notation "x <- c ;; k" := (bind c (fun x => k))
  (at level 61, c at next level, right associativity).
Notation "' p <- c ;; k" := (bind c (fun x => let p := x in k))
  (at level 61, p pattern, c at next level, right associativity).

(** [raises_only e c]: if [c] raises, it raises [e]. *)
Definition raises_only {A : Type} (e : exception) (c : result A) : Prop :=
  forall e', c = Raise e' -> e' = e.

(** A [for] loop over [xs] whose body may raise: the state after the loop. *)
Fixpoint for_each {A S : Type} (xs : list A) (s : S) (body : A -> S -> result S)
  : result S :=
  match xs with
  | [] => Ok s
  | x :: xs' => s' <- body x s ;; for_each xs' s' body
  end.

(** A list comprehension [[f(x) for x in xs]] whose [f] may raise. *)
Fixpoint comprehension {A B : Type} (f : A -> result B) (xs : list A)
  : result (list B) :=
  match xs with
  | [] => Ok []
  | x :: xs' => y <- f x ;; ys <- comprehension f xs' ;; Ok (y :: ys)
  end.

(** [enumerate(xs)]: each element with its position. *)
Fixpoint enumerate_from {A : Type} (i : nat) (xs : list A) : list (nat * A) :=
  match xs with
  | [] => []
  | x :: xs' => (i, x) :: enumerate_from (S i) xs'
  end.

Definition enumerate {A : Type} (xs : list A) : list (nat * A) :=
  enumerate_from 0 xs.

(** [xs[i]], which raises [IndexError] out of range. *)
Definition getitem {A : Type} (xs : list A) (i : nat) : result A :=
  match nth_error xs i with
  | Some x => Ok x
  | None => Raise IndexError
  end.

(** A character is its Unicode code point; a [str] is the list of them. *)
Definition char : Set := N.
Definition str : Set := list char.

Definition LF : char := 10.
Definition CR : char := 13.
Definition SP : char := 32.

(** A [str] literal (the codes of a Rocq string's characters). *)
Definition text (s : string) : str :=
  map N_of_ascii (list_ascii_of_string s).

Arguments text s%_string.

(** The text of a file given line by line, each line ended by [\n]. *)
Definition text_lines (ls : list string) : str :=
  concat (map (fun l => text l ++ [LF]) ls).

(** [c.isspace()] for a single character: the code points Python counts as
    white space. *)
Definition isspace (c : char) : bool :=
  ((9 <=? c) && (c <=? 13)) || ((28 <=? c) && (c <=? 32))
  || (c =? 133) || (c =? 160) || (c =? 5760)
  || ((8192 <=? c) && (c <=? 8202))
  || (c =? 8232) || (c =? 8233) || (c =? 8239) || (c =? 8287) || (c =? 12288).

(** [s.rstrip()]: [s] without its trailing white space. *)
Fixpoint rstrip (s : str) : str :=
  match s with
  | [] => []
  | c :: s' =>
      match rstrip s' with
      | [] => if isspace c then [] else [c]
      | t => c :: t
      end
  end.

(** [s.split(sep)] for a separator of one character: the pieces between the
    occurrences of [sep], empty pieces kept; [''.split(' ')] is [['']]. *)
Fixpoint split (sep : char) (s : str) : list str :=
  match s with
  | [] => [[]]
  | c :: s' =>
      if c =? sep then [] :: split sep s'
      else match split sep s' with
           | w :: ws => (c :: w) :: ws
           | [] => [[c]]
           end
  end.

(** [sep.join(fields)]. *)
Fixpoint join (sep : char) (fields : list str) : str :=
  match fields with
  | [] => []
  | [w] => w
  | w :: ws => w ++ sep :: join sep ws
  end.

(** A file opened in text mode reads [\r\n] and a lone [\r] as [\n]. *)
Fixpoint universal_newlines (s : str) : str :=
  match s with
  | [] => []
  | c :: s' =>
      if c =? CR then
        LF :: match s' with
              | d :: s'' => if d =? LF then universal_newlines s''
                            else universal_newlines s'
              | [] => []
              end
      else c :: universal_newlines s'
  end.

(** The lines of a text, each with the [\n] that ends it; a last line with no
    [\n] is a line too, and the empty text has no line. *)
Fixpoint readlines (s : str) : list str :=
  match s with
  | [] => []
  | c :: s' =>
      if c =? LF then [c] :: readlines s'
      else match readlines s' with
           | l :: ls => (c :: l) :: ls
           | [] => [[c]]
           end
  end.

(** The files on disk: the decoded text of each file that exists. *)
Definition file_system : Type := str -> option str.

(** [open(filename, encoding='utf-8')]: the file object, here the lines that
    iterating over it yields. *)
Definition open (fs : file_system) (filename : str) : result (list str) :=
  match fs filename with
  | Some content => Ok (readlines (universal_newlines content))
  | None => Raise FileNotFoundError
  end.

(** *** Words and lines

    The vocabulary for saying what a line of text holds.  A [str] is
    [spaceless] when no character of it is white space and [blank] when all
    are.  The [fields] of a line are [tidy] when there is at least one, all
    are spaceless, and the last one is not empty unless it is the only one;
    [line_of fields l] says that [l] is those fields, single spaces between
    them, and then the end of the line. *)

Definition spaceless (w : str) : Prop :=
  Forall (fun c => isspace c = false) w.

Definition blank (w : str) : Prop :=
  Forall (fun c => isspace c = true) w.

Definition tidy (fields : list str) : Prop :=
  fields <> [] /\ Forall spaceless fields
  /\ (length fields = 1%nat \/ last fields [] <> []).

Definition line_of (fields : list str) (l : str) : Prop :=
  exists eol, blank eol /\ l = join SP fields ++ eol.

End Python.

Import Python.

(** ** MLFairness.ipynb: [load_embeddings] *)

Module MLFairness.

Section Numbers.

(** The numbers are the libraries': [float64] is Python's [float], [float32]
    numpy's dtype ['f'].  [float x] is the builtin [float(x)] on a [str]
    ([None] when it raises [ValueError]) and [np_float32] the conversion that
    [np.array(..., 'f')] applies to each element. *)
Variables float64 float32 : Type.
Variable float : str -> option float64.
Variable np_float32 : float64 -> float32.

Definition float_ (x : str) : result float64 :=
  match float x with
  | Some v => Ok v
  | None => Raise ValueError
  end.

(** [np.array(xs, 'f')]: a one-dimensional array of [float32]. *)
Definition np_array_f (xs : list float64) : list float32 :=
  map np_float32 xs.

(** [np.vstack(rows)]: the rows stacked into a matrix.  It raises
    [ValueError] on an empty list and on rows of different lengths. *)
Definition np_vstack (rows : list (list float32)) : result (list (list float32)) :=
  match rows with
  | [] => Raise ValueError
  | r :: rs =>
      if forallb (fun r' => Nat.eqb (length r') (length r)) rs
      then Ok rows else Raise ValueError
  end.

(** A [DataFrame]: the row labels and the matrix of values. *)
Record DataFrame : Type := mkDataFrame {
  index : list str;
  values : list (list float32)
}.

(** [pd.DataFrame(arr, index=labels, dtype='f')]; pandas raises [ValueError]
    when the number of labels is not the number of rows. *)
Definition pd_DataFrame (arr : list (list float32)) (labels : list str)
  : result DataFrame :=
  if Nat.eqb (length arr) (length labels)
  then Ok {| index := labels; values := arr |}
  else Raise ValueError.

(** The body of the loop over the lines, on the pair [(labels, rows)]. *)
Definition load_line (entry : nat * str) (acc : list str * list (list float32))
  : result (list str * list (list float32)) :=
  let '(i, line) := entry in
  let '(labels, rows) := acc in
  let items := split SP (rstrip line) in
  if Nat.eqb (length items) 2 then
    (* This is a header row giving the shape of the matrix *)
    Ok (labels, rows)
  else
    label <- getitem items 0 ;;
    let labels := labels ++ [label] in
    xs <- comprehension float_ (skipn 1 items) ;;
    let values := np_array_f xs in
    Ok (labels, rows ++ [values]).

(** The loop in parts: the items of a line, the test for a header row, the
    lines the loop keeps, and what it appends for a line it keeps. *)
Definition items_of (line : str) : list str :=
  split SP (rstrip line).

Definition header_row (line : str) : bool :=
  Nat.eqb (length (items_of line)) 2.

Definition retained (lines : list str) : list str :=
  filter (fun line => negb (header_row line)) lines.

Definition parse_row (line : str) : result (str * list float32) :=
  label <- getitem (items_of line) 0 ;;
  xs <- comprehension float_ (skipn 1 (items_of line)) ;;
  Ok (label, np_array_f xs).

Definition load_embeddings (fs : file_system) (filename : str)
  : result DataFrame :=
  let labels := [] in
  let rows := [] in
  infile <- open fs filename ;;
  '(labels, rows) <- for_each (enumerate infile) (labels, rows) load_line ;;
  arr <- np_vstack rows ;;
  pd_DataFrame arr labels.

(** *** Well-formed files

    A file is described by the fields of each of its lines.  The rows with
    exactly two fields are the ones the loop takes for headers; the others
    are the data rows.  The file is [well_formed] when every line is its tidy
    fields separated by single spaces, and in every data row each field
    after the first one is numeric, [values] giving what [float] reads. *)

Definition data_rows (entries : list (list str)) : list (list str) :=
  filter (fun e => negb (Nat.eqb (length e) 2)) entries.

Definition numeric (x : str) (v : float64) : Prop :=
  float x = Some v.

Definition well_formed (lines : list str) (entries : list (list str))
  (values : list (list float64)) : Prop :=
  Forall2 line_of entries lines
  /\ Forall tidy entries
  /\ Forall2 (fun e vs => Forall2 numeric (tl e) vs) (data_rows entries) values.

(** The table that such a file describes. *)
Definition table_of (entries : list (list str)) (values : list (list float64))
  : DataFrame :=
  {| index := map (hd []) (data_rows entries);
     values := map np_array_f values |}.

End Numbers.

Arguments mkDataFrame {float32} index values.
Arguments index {float32} d.
Arguments values {float32} d.
Arguments load_embeddings {float64 float32} float np_float32 fs filename.
Arguments load_line {float64 float32} float np_float32 entry acc.
Arguments float_ {float64} float x.
Arguments np_array_f {float64 float32} np_float32 xs.
Arguments np_vstack {float32} rows.
Arguments pd_DataFrame {float32} arr labels.
Arguments parse_row {float64 float32} float np_float32 line.
Arguments numeric {float64} float x v.
Arguments well_formed {float64} float lines entries values.
Arguments table_of {float64 float32} np_float32 entries values.

(** *** A reading of decimal digits

    For closed examples the two parameters are instantiated with the part of
    [float(x)] that is plain to compute: a [str] of one to fifteen ASCII
    digits denotes the integer it spells, which binary64 holds exactly.  Any
    other [str] is outside this reading and is given no value. *)

Definition digit (c : char) : option Z :=
  if (48 <=? c) && (c <=? 57) then Some (Z.of_N (c - 48)) else None.

Fixpoint digits_value (acc : Z) (s : str) : option Z :=
  match s with
  | [] => Some acc
  | c :: s' =>
      match digit c with
      | Some d => digits_value (10 * acc + d) s'
      | None => None
      end
  end.

Definition float_of_digits (x : str) : option PrimFloat.float :=
  match x with
  | [] => None
  | _ =>
      if Nat.leb (length x) 15 then
        option_map (fun z => PrimFloat.of_uint63 (Uint63.of_Z z)) (digits_value 0 x)
      else None
  end.

(** On integers below [2^24] the conversion to [float32] changes nothing. *)
Definition float32_of_small (v : PrimFloat.float) : PrimFloat.float := v.

Definition load_digits : file_system -> str -> result (DataFrame PrimFloat.float) :=
  load_embeddings float_of_digits float32_of_small.

(** A file system with the single file [name], holding [content]. *)
Fixpoint str_eqb (a b : str) : bool :=
  match a, b with
  | [], [] => true
  | c :: a', d :: b' => (c =? d) && str_eqb a' b'
  | _, _ => false
  end.

Definition single_file (name content : str) : file_system :=
  fun filename => if str_eqb filename name then Some content else None.

(** *** Example files *)

Definition glove : str := text "data/glove.42B.300d.txt".

(** A line of text with its [\n]. *)
Definition line (s : string) : str := text s ++ [LF].

Arguments line s%_string.

#[local] Open Scope string_scope.

(** A header and two vectors of dimension two. *)
Definition small_vectors : str := text_lines ["2 2"; "cat 1 2"; "dog 3 4"].

(** Two vectors of different dimensions. *)
Definition ragged_vectors : str := text_lines ["cat 1 2 3"; "dog 4 5 6 7"].

(** Three words, the second with a vector of dimension one. *)
Definition vectors_with_cat : str := text_lines ["dog 1 2"; "cat 5"; "owl 3 4"].
Definition vectors_without_cat : str := text_lines ["dog 1 2"; "owl 3 4"].

(** Only the header that gives the shape of the matrix. *)
Definition header_only : str := text_lines ["400000 300"].

(** A field that is no number, and a blank line after a vector. *)
Definition vectors_with_bad_field : str := text_lines ["cat 1 x"].
Definition vectors_with_blank_line : str := text_lines ["cat 1 2"; EmptyString].

(** A tab inside the first of two items, and a no-break space inside a
    label. *)
Definition tab_line : str := (text "a" ++ [9%N] ++ text "b 7" ++ [LF])%list.
Definition new_york_line : str :=
  (text "New" ++ [160%N] ++ text "York 1 2" ++ [LF])%list.
Definition vectors_with_other_spaces : str :=
  (tab_line ++ new_york_line ++ line "dog 3 4")%list.

End MLFairness.

(** ** The convolutional-network notebook: [run] and the tuning cells *)

Module CNN.

#[local] Open Scope Z_scope.

Inductive activation : Set :=
| relu
| softmax.

(** The Keras layers the notebook constructs, with the arguments it passes. *)
Inductive layer : Set :=
| Input (shape : Z)
| Embedding (input_dim output_dim input_length : Z)
| Conv1D (filters kernel_size : Z) (activation : activation)
| GlobalMaxPooling1D
| concatenate (axis : Z)
| Dropout (rate : float)
| Dense (units : Z) (activation : activation).

(** A symbolic tensor: the layer that produced it and the tensors that layer
    was called on. *)
Inductive tensor : Set :=
| output_of (l : layer) (inputs : list tensor).

(** [keras.Model(inputs=..., outputs=...)]. *)
Record Model : Set := mkModel {
  inputs : tensor;
  outputs : tensor
}.

(** The values of the printed dictionary. *)
Inductive value : Set :=
| Int (n : Z)
| Ints (ns : list Z)
| Float (x : float).

Definition dict : Set := list (string * value).

(** What [run] does that can be observed from outside, in order: the layer
    constructors it calls, and its calls of [compile], [print],
    [reset_states] and [fit]. *)
Inductive event : Set :=
| layer_call (l : layer)
| compile (m : Model) (optimizer loss : string) (metrics : list string)
| print (d : dict)
| reset_states (m : Model)
| fit (m : Model) (x : list (list Z)) (y : list Z) (epochs : Z).

(** A computation that appends to the trace of events and may raise; the
    events before a raised exception stay in the trace. *)
Definition M (A : Type) : Type := list event -> result A * list event.

Definition ret {A : Type} (a : A) : M A := fun tr => (Ok a, tr).

Definition raise {A : Type} (e : exception) : M A := fun tr => (Raise e, tr).

Definition bindM {A B : Type} (c : M A) (k : A -> M B) : M B :=
  fun tr =>
    match c tr with
    | (Ok a, tr') => k a tr'
    | (Raise e, tr') => (Raise e, tr')
    end.

Definition emit (e : event) : M unit := fun tr => (Ok tt, tr ++ [e]).

Declare Scope keras_scope.
Delimit Scope keras_scope with keras.
Notation "x <- c ;; k" := (bindM c (fun x => k))
  (at level 61, c at next level, right associativity) : keras_scope.
Notation "c ;; k" := (bindM c (fun _ => k))
  (at level 61, right associativity) : keras_scope.
#[local] Open Scope keras_scope.

(** [keras.layers.L(args)(inputs)]: construct the layer and call it. *)
Definition keras_layers (l : layer) (inputs : list tensor) : M tensor :=
  emit (layer_call l) ;; ret (output_of l inputs).

(** A [for] loop whose body works in [M]. *)
Fixpoint for_in {A S : Type} (xs : list A) (s : S) (body : A -> S -> M S) : M S :=
  match xs with
  | [] => ret s
  | x :: xs' => s' <- body x s ;; for_in xs' s' body
  end.

(** [zip(xs, ys)], as long as the shorter of the two. *)
Definition zip {A B : Type} (xs : list A) (ys : list B) : list (A * B) :=
  combine xs ys.

(** The names [run] reads from the notebook's namespace.  The cell that loads
    the dataset binds [ds], [max_len], [train_x] and [train_y]; no cell of the
    notebook binds [dropout_rate], so it is there only if the kernel holds it
    from elsewhere. *)
Record namespace : Set := mkNamespace {
  ds_target_names : list str;
  ds_vocab_size : Z;
  max_len : Z;
  train_x : list (list Z);
  train_y : list Z;
  dropout_rate : option float
}.

(** Reading a global name: [NameError] when it is not bound. *)
Definition global {A : Type} (binding : option A) : M A :=
  match binding with
  | Some v => ret v
  | None => raise NameError
  end.

(** The keyword arguments of a call of [run]: each is given or left out. *)
Record keywords : Set := mkKeywords {
  epochs : option Z;
  embed_dim : option Z;
  num_filters : option (list Z);
  kernel_sizes : option (list Z);
  dense_layer_dims : option (list Z);
  dropout : option float
}.

Definition or_default {A : Type} (given : option A) (default : A) : A :=
  match given with
  | Some v => v
  | None => default
  end.

(** The hyperparameters of a call, with the defaults of [run]'s signature. *)
Record hyperparameters : Set := mkHyperparameters {
  hp_epochs : Z;
  hp_embed_dim : Z;
  hp_num_filters : list Z;
  hp_kernel_sizes : list Z;
  hp_dense_layer_dims : list Z;
  hp_dropout : float
}.

Definition signature (kw : keywords) : hyperparameters :=
  {| hp_epochs := or_default (epochs kw) 10;
     hp_embed_dim := or_default (embed_dim kw) 5;
     hp_num_filters := or_default (num_filters kw) [2; 2; 2];
     hp_kernel_sizes := or_default (kernel_sizes kw) [2; 3; 4];
     hp_dense_layer_dims := or_default (dense_layer_dims kw) [512; 256];
     hp_dropout := or_default (dropout kw) 0.4%float |}.

(** The body of [run] on the bound hyperparameters. *)
Definition run_body (g : namespace) (hp : hyperparameters) : M Model :=
  let epochs := hp_epochs hp in
  let embed_dim := hp_embed_dim hp in
  let num_filters := hp_num_filters hp in
  let kernel_sizes := hp_kernel_sizes hp in
  let dense_layer_dims := hp_dense_layer_dims hp in
  let dropout := hp_dropout hp in
  let num_classes := Z.of_nat (length (ds_target_names g)) in
  wordids <- keras_layers (Input (max_len g)) [] ;;
  h <- keras_layers (Embedding (ds_vocab_size g) embed_dim (max_len g)) [wordids] ;;
  let conv_layers_for_all_kernel_sizes := [] in
  conv_layers_for_all_kernel_sizes <-
    for_in (zip kernel_sizes num_filters) conv_layers_for_all_kernel_sizes
      (fun '(filters, kernel_size) conv_layers_for_all_kernel_sizes =>
         conv_layer <- keras_layers (Conv1D filters kernel_size relu) [h] ;;
         conv_layer <- keras_layers GlobalMaxPooling1D [conv_layer] ;;
         ret (conv_layers_for_all_kernel_sizes ++ [conv_layer])) ;;
  h <- keras_layers (concatenate 1) conv_layers_for_all_kernel_sizes ;;
  rate <- global (dropout_rate g) ;;
  h <- keras_layers (Dropout rate) [h] ;;
  h <- for_in dense_layer_dims h
         (fun dim h => keras_layers (Dense dim relu) [h]) ;;
  prediction <- keras_layers (Dense num_classes softmax) [h] ;;
  let model := {| inputs := wordids; outputs := prediction |} in
  emit (compile model "adam" "sparse_categorical_crossentropy" ["accuracy"%string]) ;;
  emit (print [("epochs", Int epochs); ("embed_dim", Int embed_dim);
               ("num_filters", Ints num_filters);
               ("kernel_sizes", Ints kernel_sizes);
               ("dense_layer_dims", Ints dense_layer_dims);
               ("dropout", Float dropout)]%string) ;;
  emit (reset_states model) ;;
  emit (fit model (train_x g) (train_y g) epochs) ;;
  ret model.

(** A call of [run] with the keyword arguments [kw], in the namespace [g]. *)
Definition run (g : namespace) (kw : keywords) : M Model :=
  run_body g (signature kw).

(** A call of [run] at the top of a cell: its result and what it did. *)
Definition call_run (g : namespace) (kw : keywords) : result Model * list event :=
  run g kw [].

(** *** Reading a call

    The layers a trace constructs, and among them the [Conv1D] and the
    [Dropout] ones; then the shape of what [run] builds: the convolution and
    pooling layers for the pairs that the loop goes through, the pooled
    branch of one pair, and the stack of dense layers. *)

Definition layer_calls (tr : list event) : list layer :=
  flat_map (fun e => match e with layer_call l => [l] | _ => [] end) tr.

Definition conv1d_layers (tr : list event) : list layer :=
  filter (fun l => match l with Conv1D _ _ _ => true | _ => false end)
    (layer_calls tr).

Definition dropout_layers (tr : list event) : list layer :=
  filter (fun l => match l with Dropout _ => true | _ => false end)
    (layer_calls tr).

Definition conv_pool_layers (pairs : list (Z * Z)) : list layer :=
  flat_map (fun p => [Conv1D (fst p) (snd p) relu; GlobalMaxPooling1D]) pairs.

Definition conv_pool (h : tensor) (p : Z * Z) : tensor :=
  output_of GlobalMaxPooling1D [output_of (Conv1D (fst p) (snd p) relu) [h]].

Definition dense_stack (dims : list Z) (h : tensor) : tensor :=
  fold_left (fun h dim => output_of (Dense dim relu) [h]) dims h.

(** What a call builds when it goes through: the input, the embedding, the
    concatenation of the pooled branches, and the compiled network; and the
    layers in the order of their construction, up to the concatenation and
    from the dropout on. *)

Definition num_classes (g : namespace) : Z :=
  Z.of_nat (length (ds_target_names g)).

Definition wordids (g : namespace) : tensor :=
  output_of (Input (max_len g)) [].

Definition embedded (g : namespace) (hp : hyperparameters) : tensor :=
  output_of (Embedding (ds_vocab_size g) (hp_embed_dim hp) (max_len g))
    [wordids g].

Definition pooled (g : namespace) (hp : hyperparameters) : tensor :=
  output_of (concatenate 1)
    (map (conv_pool (embedded g hp))
       (zip (hp_kernel_sizes hp) (hp_num_filters hp))).

Definition network (g : namespace) (hp : hyperparameters) (rate : float) : Model :=
  {| inputs := wordids g;
     outputs :=
       output_of (Dense (num_classes g) softmax)
         [dense_stack (hp_dense_layer_dims hp)
            (output_of (Dropout rate) [pooled g hp])] |}.

Definition layers_to_concatenate (g : namespace) (hp : hyperparameters)
  : list layer :=
  [Input (max_len g); Embedding (ds_vocab_size g) (hp_embed_dim hp) (max_len g)]
  ++ conv_pool_layers (zip (hp_kernel_sizes hp) (hp_num_filters hp))
  ++ [concatenate 1].

Definition layers_from_dropout (g : namespace) (hp : hyperparameters)
  (rate : float) : list layer :=
  [Dropout rate]
  ++ map (fun dim => Dense dim relu) (hp_dense_layer_dims hp)
  ++ [Dense (num_classes g) softmax].

(** The dictionary of the six hyperparameters. *)
Definition configuration (hp : hyperparameters) : dict :=
  [("epochs", Int (hp_epochs hp)); ("embed_dim", Int (hp_embed_dim hp));
   ("num_filters", Ints (hp_num_filters hp));
   ("kernel_sizes", Ints (hp_kernel_sizes hp));
   ("dense_layer_dims", Ints (hp_dense_layer_dims hp));
   ("dropout", Float (hp_dropout hp))]%string.

(** A namespace of the shape the data cell leaves: two target names, a
    vocabulary, [max_len = 40]; the training arrays are left empty, their
    contents playing no part in what follows. *)
Definition sst_namespace (dropout_rate : option float) : namespace :=
  {| ds_target_names := [text "0"; text "1"];
     ds_vocab_size := 16474;
     max_len := 40;
     train_x := [];
     train_y := [];
     dropout_rate := dropout_rate |}.

(** *** The tuning cells: [model1 = run(embed_dim=50)] to [model9]. *)

Definition no_keywords : keywords :=
  {| epochs := None; embed_dim := None; num_filters := None;
     kernel_sizes := None; dense_layer_dims := None; dropout := None |}.

Definition model1 : keywords :=
  {| epochs := None; embed_dim := Some 50; num_filters := None;
     kernel_sizes := None; dense_layer_dims := None; dropout := None |}.

Definition model2 : keywords :=
  {| epochs := None; embed_dim := Some 100; num_filters := None;
     kernel_sizes := None; dense_layer_dims := Some [256; 256];
     dropout := Some 0.7%float |}.

Definition model3 : keywords :=
  {| epochs := None; embed_dim := Some 100; num_filters := Some [2; 2; 2];
     kernel_sizes := Some [2; 4; 8]; dense_layer_dims := Some [128; 128];
     dropout := Some 0.7%float |}.

Definition model4 : keywords :=
  {| epochs := None; embed_dim := Some 100; num_filters := Some [2; 2; 2];
     kernel_sizes := Some [2; 4; 8]; dense_layer_dims := Some [64; 32];
     dropout := Some 0.8%float |}.

Definition model5 : keywords :=
  {| epochs := Some 5; embed_dim := Some 100; num_filters := Some [2; 2; 2];
     kernel_sizes := Some [2; 4; 8]; dense_layer_dims := Some [64; 32];
     dropout := Some 0.8%float |}.

Definition model6 : keywords :=
  {| epochs := Some 5; embed_dim := Some 50; num_filters := Some [2; 2; 2];
     kernel_sizes := Some [2; 4; 6]; dense_layer_dims := Some [128; 64];
     dropout := Some 0.7%float |}.

Definition model7 : keywords :=
  {| epochs := Some 5; embed_dim := Some 100; num_filters := Some [2; 2; 2];
     kernel_sizes := Some [2; 4; 6]; dense_layer_dims := Some [64; 32];
     dropout := Some 0.6%float |}.

Definition model8 : keywords :=
  {| epochs := Some 5; embed_dim := Some 100; num_filters := Some [2; 2; 2];
     kernel_sizes := Some [2; 4; 6]; dense_layer_dims := Some [128; 64];
     dropout := Some 0.8%float |}.

Definition model9 : keywords :=
  {| epochs := Some 5; embed_dim := Some 25; num_filters := Some [2; 2; 2];
     kernel_sizes := Some [2; 4; 6]; dense_layer_dims := Some [128; 64];
     dropout := Some 0.8%float |}.

(** The calls of the tuning cells, in the order of the notebook. *)
Definition tuning_cells : list keywords :=
  [model1; model2; model3; model4; model5; model6; model7; model8; model9].

(** Running the tuning cells one after the other: each cell calls [run]
    afresh in the same namespace, and the notebook shows the output of each
    under its cell. *)
Definition run_tuning_cells (g : namespace) : list (result Model * list event) :=
  map (call_run g) tuning_cells.

End CNN.

(** ** More example files *)

Module Files.

Import MLFairness.

#[local] Open Scope string_scope.

(** [small_vectors] with spaces at the end of two of its lines. *)
Definition small_vectors_spaced : str :=
  text_lines ["2 2  "; "cat 1 2 "; "dog 3 4"].

(** The lines of [small_vectors] and the table they make. *)
Definition small_lines : list str :=
  [line "2 2"; line "cat 1 2"; line "dog 3 4"].

Definition small_table : DataFrame PrimFloat.float :=
  {| index := [text "cat"; text "dog"];
     values := [[1; 2]; [3; 4]]%float |}.

End Files.

(** ** The cells around [run]

    The cells of the convolutional-network notebook after the one that
    defines [run]: the cell that resets and fits the global [model], the cell
    that evaluates it, the tuning cells [modelN = run(...)], each followed by
    [modelN.evaluate(dev_x, dev_y)], and the cell that evaluates [model5],
    [model7] and [model8] on the test set.  A cell runs in the namespace of
    the kernel, reads the names it mentions ([NameError] when one is not
    bound), and may bind a name. *)

Module Notebook.

Import CNN.

#[local] Open Scope Z_scope.

(** The call [kw] with other [num_filters] and [kernel_sizes], and with
    another [dropout]. *)
Definition with_lists (kw : keywords) (nf ks : list Z) : keywords :=
  {| epochs := epochs kw; embed_dim := embed_dim kw;
     num_filters := Some nf; kernel_sizes := Some ks;
     dense_layer_dims := dense_layer_dims kw; dropout := dropout kw |}.

Definition with_dropout (kw : keywords) (d : option float) : keywords :=
  {| epochs := epochs kw; embed_dim := embed_dim kw;
     num_filters := num_filters kw; kernel_sizes := kernel_sizes kw;
     dense_layer_dims := dense_layer_dims kw; dropout := d |}.

(** The namespace of the kernel: what [run] reads, the development and test
    arrays of the data cell, and the names the cells below read or bind:
    [model], [epochs], and [model1] to [model9] (by their numbers, the
    latest binding first). *)
Record kernel : Set := mkKernel {
  globals : namespace;
  dev_x : list (list Z);
  dev_y : list Z;
  test_x : list (list Z);
  test_y : list Z;
  name_model : option Model;
  name_epochs : option Z;
  name_tuned : list (nat * Model)
}.

Definition lookup_tuned (n : nat) (k : kernel) : option Model :=
  match find (fun b => Nat.eqb (fst b) n) (name_tuned k) with
  | Some b => Some (snd b)
  | None => None
  end.

Definition bind_tuned (n : nat) (m : Model) (k : kernel) : kernel :=
  {| globals := globals k;
     dev_x := dev_x k; dev_y := dev_y k;
     test_x := test_x k; test_y := test_y k;
     name_model := name_model k; name_epochs := name_epochs k;
     name_tuned := (n, m) :: name_tuned k |}.

(** What the cells do: what [run] does, and calls of [evaluate]. *)
Inductive action : Set :=
| did (e : event)
| evaluate (m : Model) (x : list (list Z)) (y : list Z).

(** A statement or a cell: its outcome, the namespace it leaves, and what it
    did. *)
Definition step : Type := kernel -> result unit * kernel * list action.

(** One statement after another; an exception ends the cell. *)
Definition and_then (s1 s2 : step) : step :=
  fun k =>
    match s1 k with
    | (Ok _, k1, tr1) =>
        match s2 k1 with
        | (r, k2, tr2) => (r, k2, tr1 ++ tr2)
        end
    | (Raise e, k1, tr1) => (Raise e, k1, tr1)
    end.

(** [modelN = run(...)]: the name is bound when [run] returns. *)
Definition assign_run (n : nat) (kw : keywords) : step :=
  fun k =>
    match call_run (globals k) kw with
    | (Ok m, tr) => (Ok tt, bind_tuned n m k, map did tr)
    | (Raise e, tr) => (Raise e, k, map did tr)
    end.

(** [modelN.evaluate(dev_x, dev_y)] and [modelN.evaluate(test_x, test_y)]. *)
Definition evaluate_dev (n : nat) : step :=
  fun k =>
    match lookup_tuned n k with
    | Some m => (Ok tt, k, [evaluate m (dev_x k) (dev_y k)])
    | None => (Raise NameError, k, [])
    end.

Definition evaluate_test (n : nat) : step :=
  fun k =>
    match lookup_tuned n k with
    | Some m => (Ok tt, k, [evaluate m (test_x k) (test_y k)])
    | None => (Raise NameError, k, [])
    end.

(** The cell [model.reset_states()] / [model.fit(train_x, train_y,
    epochs=epochs)]: it reads [model], resets it, then reads [epochs]. *)
Definition fit_cell : step :=
  fun k =>
    match name_model k with
    | None => (Raise NameError, k, [])
    | Some m =>
        match name_epochs k with
        | None => (Raise NameError, k, [did (reset_states m)])
        | Some e =>
            (Ok tt, k,
             [did (reset_states m);
              did (fit m (train_x (globals k)) (train_y (globals k)) e)])
        end
    end.

(** The cell [model.evaluate(dev_x, dev_y)]. *)
Definition evaluate_cell : step :=
  fun k =>
    match name_model k with
    | Some m => (Ok tt, k, [evaluate m (dev_x k) (dev_y k)])
    | None => (Raise NameError, k, [])
    end.

(** The cell that evaluates the three best models on the test set. *)
Definition test_cell : step :=
  and_then (evaluate_test 5) (and_then (evaluate_test 7) (evaluate_test 8)).

(** The tuning cells with their evaluations, and all the cells after the
    definition of [run], in the order of the notebook. *)
Definition tuning_section : list step :=
  [assign_run 1 model1; evaluate_dev 1;
   assign_run 2 model2; evaluate_dev 2;
   assign_run 3 model3; evaluate_dev 3;
   assign_run 4 model4; evaluate_dev 4;
   assign_run 5 model5; evaluate_dev 5;
   assign_run 6 model6; evaluate_dev 6;
   assign_run 7 model7; evaluate_dev 7;
   assign_run 8 model8; evaluate_dev 8;
   test_cell;
   assign_run 9 model9; evaluate_dev 9].

Definition cells : list step :=
  fit_cell :: evaluate_cell :: tuning_section.

(** Running cells one after the other, each whatever became of the ones
    before: the outcome of each, the namespace left, and all that was
    done. *)
Fixpoint run_cells (cs : list step) (k : kernel)
  : list (result unit) * kernel * list action :=
  match cs with
  | [] => ([], k, [])
  | c :: cs' =>
      match c k with
      | (r, k1, tr1) =>
          match run_cells cs' k1 with
          | (rs, k2, tr2) => (r :: rs, k2, tr1 ++ tr2)
          end
      end
  end.

(** What a kernel holds of the data. *)
Definition data (k : kernel)
  : namespace * list (list Z) * list Z * list (list Z) * list Z :=
  (globals k, dev_x k, dev_y k, test_x k, test_y k).

(** Starting from [k], the actions [tr] fit on the training arrays only and
    evaluate on the development or the test arrays only. *)
Definition on_their_data (k : kernel) (tr : list action) : Prop :=
  (forall m x y e, In (did (fit m x y e)) tr ->
     x = train_x (globals k) /\ y = train_y (globals k))
  /\ (forall m x y, In (evaluate m x y) tr ->
        (x = dev_x k /\ y = dev_y k) \/ (x = test_x k /\ y = test_y k)).

(** A step that leaves the data as they were and acts on its own arrays. *)
Definition keeps (s : step) : Prop :=
  forall k r k' tr, s k = (r, k', tr) -> data k' = data k /\ on_their_data k tr.

(** A kernel on [sst_namespace], with small development and test arrays. *)
Definition sst_kernel (dropout_rate : option float) : kernel :=
  {| globals := sst_namespace dropout_rate;
     dev_x := [[1; 2]]; dev_y := [1];
     test_x := [[3; 4]]; test_y := [0];
     name_model := None; name_epochs := None; name_tuned := [] |}.

End Notebook.

(** ** What [open] and the reading of the file can come to

    [Python.open] tells a file that is there from one that is not.  The real
    [open] can also fail on a file that is there (no permission, a
    directory), and reading can fail part of the way through (bytes that are
    not UTF-8).  A [reading] is any of these: [open] raises, or the file
    yields some lines and then ends, or raises.  [load_embeddings_on] is
    the body of [load_embeddings] on a reading; nothing in it catches an
    exception. *)

Module Reading.

Import MLFairness.

Inductive reading : Set :=
| cannot_open (e : exception)
| yields (lines : list str) (ending : option exception).

(** The reading of a file on [file_system]. *)
Definition reading_of (fs : file_system) (filename : str) : reading :=
  match fs filename with
  | Some content => yields (readlines (universal_newlines content)) None
  | None => cannot_open FileNotFoundError
  end.

Section Numbers.

Variables float64 float32 : Type.
Variable float : str -> option float64.
Variable np_float32 : float64 -> float32.

Definition load_embeddings_on (r : reading) : result (DataFrame float32) :=
  let labels := [] in
  let rows := [] in
  match r with
  | cannot_open e => Raise e
  | yields infile ending =>
      '(labels, rows) <-
        for_each (enumerate infile) (labels, rows) (load_line float np_float32) ;;
      match ending with
      | Some e => Raise e
      | None =>
          arr <- np_vstack rows ;;
          pd_DataFrame arr labels
      end
  end.

End Numbers.

Arguments load_embeddings_on {float64 float32} float np_float32 r.

End Reading.

(** ** Keras with its own checks

    In [CNN] every call into Keras goes through.  The real library checks
    what it is given and raises (a concatenation of no tensor, a dense layer
    of no unit, a kernel longer than the input).  Here the checks are a
    parameter: [refuses r] is the exception that Keras raises on the request
    [r], if it raises one.  [run] is the same text as in [CNN], each call
    into Keras asking first; the tuning cells are as in [Notebook]. *)

Module Checked.

Import CNN Notebook.

#[local] Open Scope Z_scope.
#[local] Open Scope keras_scope.

(** What the notebook asks of Keras. *)
Inductive request : Set :=
| ask_layer (l : layer) (inputs : list tensor)
| ask_Model (inputs outputs : tensor)
| ask_compile (m : Model) (optimizer loss : string) (metrics : list string)
| ask_reset_states (m : Model)
| ask_fit (m : Model) (x : list (list Z)) (y : list Z) (epochs : Z)
| ask_evaluate (m : Model) (x : list (list Z)) (y : list Z).

Section Keras.

Variable refuses : request -> option exception.

(** A call into Keras: it raises what Keras raises, or is done and leaves
    its events in the trace. *)
Definition keras (r : request) (done : list event) : M unit :=
  match refuses r with
  | Some e => raise e
  | None => fun tr => (Ok tt, tr ++ done)
  end.

(** [keras.layers.L(args)(inputs)]. *)
Definition keras_layers (l : layer) (inputs : list tensor) : M tensor :=
  keras (ask_layer l inputs) [layer_call l] ;; ret (output_of l inputs).

Definition run_body (g : namespace) (hp : hyperparameters) : M Model :=
  let epochs := hp_epochs hp in
  let embed_dim := hp_embed_dim hp in
  let num_filters := hp_num_filters hp in
  let kernel_sizes := hp_kernel_sizes hp in
  let dense_layer_dims := hp_dense_layer_dims hp in
  let dropout := hp_dropout hp in
  let num_classes := Z.of_nat (length (ds_target_names g)) in
  wordids <- keras_layers (Input (max_len g)) [] ;;
  h <- keras_layers (Embedding (ds_vocab_size g) embed_dim (max_len g)) [wordids] ;;
  let conv_layers_for_all_kernel_sizes := [] in
  conv_layers_for_all_kernel_sizes <-
    for_in (zip kernel_sizes num_filters) conv_layers_for_all_kernel_sizes
      (fun '(filters, kernel_size) conv_layers_for_all_kernel_sizes =>
         conv_layer <- keras_layers (Conv1D filters kernel_size relu) [h] ;;
         conv_layer <- keras_layers GlobalMaxPooling1D [conv_layer] ;;
         ret (conv_layers_for_all_kernel_sizes ++ [conv_layer])) ;;
  h <- keras_layers (concatenate 1) conv_layers_for_all_kernel_sizes ;;
  rate <- global (dropout_rate g) ;;
  h <- keras_layers (Dropout rate) [h] ;;
  h <- for_in dense_layer_dims h
         (fun dim h => keras_layers (Dense dim relu) [h]) ;;
  prediction <- keras_layers (Dense num_classes softmax) [h] ;;
  let model := {| inputs := wordids; outputs := prediction |} in
  keras (ask_Model wordids prediction) [] ;;
  keras (ask_compile model "adam" "sparse_categorical_crossentropy"
           ["accuracy"%string])
    [compile model "adam" "sparse_categorical_crossentropy" ["accuracy"%string]] ;;
  emit (print [("epochs", Int epochs); ("embed_dim", Int embed_dim);
               ("num_filters", Ints num_filters);
               ("kernel_sizes", Ints kernel_sizes);
               ("dense_layer_dims", Ints dense_layer_dims);
               ("dropout", Float dropout)]%string) ;;
  keras (ask_reset_states model) [reset_states model] ;;
  keras (ask_fit model (train_x g) (train_y g) epochs)
    [fit model (train_x g) (train_y g) epochs] ;;
  ret model.

Definition run (g : namespace) (kw : keywords) : M Model :=
  run_body g (signature kw).

Definition call_run (g : namespace) (kw : keywords) : result Model * list event :=
  run g kw [].

(** *** The requests of a call, in order

    A request with the events it leaves when Keras accepts it.  [perform]
    goes through such requests and stops at the first that Keras refuses. *)

Fixpoint perform (asks : list (request * list event)) (tr : list event)
  : option exception * list event :=
  match asks with
  | [] => (None, tr)
  | (r, done) :: rest =>
      match refuses r with
      | Some e => (Some e, tr)
      | None => perform rest (tr ++ done)
      end
  end.

End Keras.

(** Going on after a first part that may have stopped. *)
Definition and_on {B : Type} (first : option exception * list event)
  (k : list event -> result B * list event) : result B * list event :=
  match first with
  | (Some e, tr) => (Raise e, tr)
  | (None, tr) => k tr
  end.

Definition layer_ask (l : layer) (inputs : list tensor) : request * list event :=
  (ask_layer l inputs, [layer_call l]).

Definition conv_pool_asks (h : tensor) (pairs : list (Z * Z))
  : list (request * list event) :=
  flat_map (fun p =>
              [layer_ask (Conv1D (fst p) (snd p) relu) [h];
               layer_ask GlobalMaxPooling1D
                 [output_of (Conv1D (fst p) (snd p) relu) [h]]]) pairs.

Fixpoint dense_asks (dims : list Z) (h : tensor) : list (request * list event) :=
  match dims with
  | [] => []
  | dim :: dims' =>
      layer_ask (Dense dim relu) [h]
      :: dense_asks dims' (output_of (Dense dim relu) [h])
  end.

(** Up to the concatenation; from the dropout to [compile]; after [print]. *)
Definition asks_to_concatenate (g : namespace) (hp : hyperparameters)
  : list (request * list event) :=
  [layer_ask (Input (max_len g)) [];
   layer_ask (Embedding (ds_vocab_size g) (hp_embed_dim hp) (max_len g))
     [wordids g]]
  ++ conv_pool_asks (embedded g hp) (zip (hp_kernel_sizes hp) (hp_num_filters hp))
  ++ [layer_ask (concatenate 1)
        (map (conv_pool (embedded g hp))
           (zip (hp_kernel_sizes hp) (hp_num_filters hp)))].

Definition asks_to_compile (g : namespace) (hp : hyperparameters) (rate : float)
  : list (request * list event) :=
  [layer_ask (Dropout rate) [pooled g hp]]
  ++ dense_asks (hp_dense_layer_dims hp) (output_of (Dropout rate) [pooled g hp])
  ++ [layer_ask (Dense (num_classes g) softmax)
        [dense_stack (hp_dense_layer_dims hp)
           (output_of (Dropout rate) [pooled g hp])];
      (ask_Model (inputs (network g hp rate)) (outputs (network g hp rate)), []);
      (ask_compile (network g hp rate) "adam" "sparse_categorical_crossentropy"
         ["accuracy"%string],
       [compile (network g hp rate) "adam" "sparse_categorical_crossentropy"
          ["accuracy"%string]])].

Definition asks_after_print (g : namespace) (hp : hyperparameters) (rate : float)
  : list (request * list event) :=
  [(ask_reset_states (network g hp rate), [reset_states (network g hp rate)]);
   (ask_fit (network g hp rate) (train_x g) (train_y g) (hp_epochs hp),
    [fit (network g hp rate) (train_x g) (train_y g) (hp_epochs hp)])].

(** All that a call asks of Keras when [dropout_rate] is [rate]. *)
Definition requests (g : namespace) (hp : hyperparameters) (rate : float)
  : list request :=
  map fst (asks_to_concatenate g hp ++ asks_to_compile g hp rate
           ++ asks_after_print g hp rate).

(** What a call does when it goes through. *)
Definition whole_trace (g : namespace) (hp : hyperparameters) (rate : float)
  : list event :=
  map layer_call (layers_to_concatenate g hp ++ layers_from_dropout g hp rate)
  ++ [compile (network g hp rate) "adam" "sparse_categorical_crossentropy"
        ["accuracy"%string];
      print (configuration hp);
      reset_states (network g hp rate);
      fit (network g hp rate) (train_x g) (train_y g) (hp_epochs hp)].

(** *** The tuning cells *)

Section Cells.

Variable refuses : request -> option exception.

Definition assign_run (n : nat) (kw : keywords) : step :=
  fun k =>
    match call_run refuses (globals k) kw with
    | (Ok m, tr) => (Ok tt, bind_tuned n m k, map did tr)
    | (Raise e, tr) => (Raise e, k, map did tr)
    end.

(** [m.evaluate(x, y)] on a model that the name holds. *)
Definition evaluate_it (m : Model) (x : list (list Z)) (y : list Z) (k : kernel)
  : result unit * kernel * list action :=
  match refuses (ask_evaluate m x y) with
  | Some e => (Raise e, k, [])
  | None => (Ok tt, k, [evaluate m x y])
  end.

Definition evaluate_dev (n : nat) : step :=
  fun k =>
    match lookup_tuned n k with
    | Some m => evaluate_it m (dev_x k) (dev_y k) k
    | None => (Raise NameError, k, [])
    end.

Definition evaluate_test (n : nat) : step :=
  fun k =>
    match lookup_tuned n k with
    | Some m => evaluate_it m (test_x k) (test_y k) k
    | None => (Raise NameError, k, [])
    end.

(** The cell [model.reset_states()] / [model.fit(train_x, train_y,
    epochs=epochs)], and the cell [model.evaluate(dev_x, dev_y)]. *)
Definition fit_cell : step :=
  fun k =>
    match name_model k with
    | None => (Raise NameError, k, [])
    | Some m =>
        match refuses (ask_reset_states m) with
        | Some e => (Raise e, k, [])
        | None =>
            match name_epochs k with
            | None => (Raise NameError, k, [did (reset_states m)])
            | Some epochs =>
                match refuses (ask_fit m (train_x (globals k))
                                 (train_y (globals k)) epochs) with
                | Some e => (Raise e, k, [did (reset_states m)])
                | None =>
                    (Ok tt, k,
                     [did (reset_states m);
                      did (fit m (train_x (globals k)) (train_y (globals k))
                             epochs)])
                end
            end
        end
    end.

Definition evaluate_cell : step :=
  fun k =>
    match name_model k with
    | Some m => evaluate_it m (dev_x k) (dev_y k) k
    | None => (Raise NameError, k, [])
    end.

Definition test_cell : step :=
  and_then (evaluate_test 5) (and_then (evaluate_test 7) (evaluate_test 8)).

Definition tuning_section : list step :=
  [assign_run 1 model1; evaluate_dev 1;
   assign_run 2 model2; evaluate_dev 2;
   assign_run 3 model3; evaluate_dev 3;
   assign_run 4 model4; evaluate_dev 4;
   assign_run 5 model5; evaluate_dev 5;
   assign_run 6 model6; evaluate_dev 6;
   assign_run 7 model7; evaluate_dev 7;
   assign_run 8 model8; evaluate_dev 8;
   test_cell;
   assign_run 9 model9; evaluate_dev 9].

Definition cells : list step :=
  fit_cell :: evaluate_cell :: tuning_section.

End Cells.

(** The uses of the data among the actions, in order: a model fitted, a
    model evaluated. *)
Inductive use : Set :=
| fitted (m : Model) (x : list (list Z)) (y : list Z) (epochs : Z)
| evaluated (m : Model) (x : list (list Z)) (y : list Z).

Definition uses (tr : list action) : list use :=
  flat_map (fun a => match a with
                     | did (fit m x y e) => [fitted m x y e]
                     | evaluate m x y => [evaluated m x y]
                     | did _ => []
                     end) tr.

(** Keras refusing nothing. *)
Definition accepting : request -> option exception := fun _ => None.

(** Keras refusing every [fit]. *)
Definition refusing_fit : request -> option exception :=
  fun q => match q with
           | ask_fit _ _ _ _ => Some ValueError
           | _ => None
           end.

End Checked.

(** * Properties *)

(** ** Python text: [rstrip], [split] and [join] *)

Module PythonFacts.

Example rstrip_line :
  rstrip (text "cat 1 2  " ++ [CR; LF]) = text "cat 1 2".
Proof. reflexivity. Qed.

Example rstrip_keeps_leading_space : rstrip (text "  cat ") = text "  cat".
Proof. reflexivity. Qed.

Example split_two_spaces : split SP (text "a  b") = [text "a"; []; text "b"].
Proof. reflexivity. Qed.

Example split_empty : split SP [] = [[]].
Proof. reflexivity. Qed.

Example readlines_mixed_ends :
  readlines (universal_newlines (text "ab" ++ [CR; LF] ++ text "cd" ++ [CR] ++ text "e"))
  = [text "ab" ++ [LF]; text "cd" ++ [LF]; text "e"].
Proof. reflexivity. Qed.

Lemma spaceless_not_SP (w : str) : spaceless w -> ~ In SP w.
Proof.
  intros Hw Hin. unfold spaceless in Hw. rewrite Forall_forall in Hw.
  apply Hw in Hin. discriminate.
Qed.

Lemma split_not_nil (sep : char) (s : str) : split sep s <> [].
Proof.
  destruct s as [|c s]; simpl; [discriminate|].
  destruct (c =? sep); [discriminate|].
  destruct (split sep s); discriminate.
Qed.

Lemma split_without_sep (sep : char) (w : str) :
  ~ In sep w -> split sep w = [w].
Proof.
  induction w as [|c w IH]; intros Hw; simpl; [reflexivity|].
  destruct (N.eqb_spec c sep) as [->|_].
  - exfalso. apply Hw. now left.
  - rewrite IH; [reflexivity|]. intros Hin. apply Hw. now right.
Qed.

Lemma split_app_sep (sep : char) (w rest : str) :
  ~ In sep w -> split sep (w ++ sep :: rest) = w :: split sep rest.
Proof.
  induction w as [|c w IH]; intros Hw; simpl.
  - now rewrite N.eqb_refl.
  - destruct (N.eqb_spec c sep) as [->|_].
    + exfalso. apply Hw. now left.
    + rewrite IH; [reflexivity|]. intros Hin. apply Hw. now right.
Qed.

(** Splitting what [join] built gives the fields back, when no field holds
    the separator. *)
Lemma split_join (sep : char) (fields : list str) :
  fields <> [] ->
  Forall (fun w => ~ In sep w) fields ->
  split sep (join sep fields) = fields.
Proof.
  induction fields as [|w ws IH]; intros Hne Hall; [congruence|].
  inversion Hall as [|? ? Hw Hws]; subst.
  destruct ws as [|w' ws'].
  - simpl. now apply split_without_sep.
  - change (join sep (w :: w' :: ws')) with (w ++ sep :: join sep (w' :: ws')).
    rewrite split_app_sep by assumption.
    rewrite IH; [reflexivity|discriminate|assumption].
Qed.

Lemma rstrip_blank (eol : str) : blank eol -> rstrip eol = [].
Proof.
  induction 1 as [|c eol Hc _ IH]; simpl; [reflexivity|].
  now rewrite IH, Hc.
Qed.

Lemma rstrip_app_blank (s eol : str) :
  blank eol -> rstrip (s ++ eol) = rstrip s.
Proof.
  intros Heol. induction s as [|c s IH]; simpl.
  - now apply rstrip_blank.
  - now rewrite IH.
Qed.

Lemma rstrip_ends_unspaced (a : str) (c : char) :
  isspace c = false -> rstrip (a ++ [c]) = a ++ [c].
Proof.
  intros Hc. induction a as [|x a IH]; simpl.
  - now rewrite Hc.
  - rewrite IH. destruct (a ++ [c]) eqn:E; [|reflexivity].
    now destruct a.
Qed.

Lemma rstrip_spaceless (w : str) : spaceless w -> rstrip w = w.
Proof.
  intros Hw. destruct w as [|c w] using rev_ind; [reflexivity|].
  apply rstrip_ends_unspaced.
  apply Forall_app in Hw as [_ Hc]. now inversion Hc.
Qed.

Lemma join_ends_with_last (sep : char) (fields : list str) :
  fields <> [] -> exists p, join sep fields = p ++ last fields [].
Proof.
  induction fields as [|w ws IH]; intros Hne; [congruence|].
  destruct ws as [|w' ws'].
  - exists []. reflexivity.
  - destruct IH as [p Hp]; [discriminate|].
    exists (w ++ sep :: p).
    change (join sep (w :: w' :: ws')) with (w ++ sep :: join sep (w' :: ws')).
    change (last (w :: w' :: ws') []) with (last (w' :: ws') []).
    now rewrite Hp, <- app_assoc.
Qed.

Lemma last_In {A : Type} (xs : list A) (d : A) : xs <> [] -> In (last xs d) xs.
Proof.
  induction xs as [|x xs IH]; intros Hne; [congruence|].
  destruct xs as [|y ys]; [now left|].
  right. apply IH. discriminate.
Qed.

(** [rstrip] leaves joined tidy fields as they are. *)
Lemma rstrip_join (fields : list str) :
  tidy fields -> rstrip (join SP fields) = join SP fields.
Proof.
  intros (Hne & Hall & Hlast).
  destruct Hlast as [Hone|Hlast].
  - destruct fields as [|w [|? ?]]; try discriminate.
    simpl. apply rstrip_spaceless. now inversion Hall.
  - destruct (join_ends_with_last SP fields Hne) as [p Hp].
    assert (Hsp : spaceless (last fields [])).
    { rewrite Forall_forall in Hall. apply Hall. now apply last_In. }
    rewrite Hp.
    destruct (last fields []) as [|c w] using rev_ind; [congruence|].
    rewrite app_assoc. apply rstrip_ends_unspaced.
    apply Forall_app in Hsp as [_ Hc]. now inversion Hc.
Qed.

(** The items of a line are its fields. *)
Lemma split_rstrip_line (fields : list str) (l : str) :
  tidy fields -> line_of fields l -> split SP (rstrip l) = fields.
Proof.
  intros Htidy (eol & Heol & ->).
  rewrite rstrip_app_blank by assumption.
  rewrite rstrip_join by assumption.
  destruct Htidy as (Hne & Hall & _).
  apply split_join; [assumption|].
  eapply Forall_impl; [|exact Hall]. apply spaceless_not_SP.
Qed.

Lemma raises_only_Ok {A : Type} (e : exception) (a : A) : raises_only e (Ok a).
Proof. intros e' H. discriminate. Qed.

Lemma raises_only_bind {A B : Type} (e : exception) (c : result A)
  (k : A -> result B) :
  raises_only e c -> (forall a, raises_only e (k a)) -> raises_only e (bind c k).
Proof.
  intros Hc Hk e' H. destruct c as [a|e0]; simpl in H.
  - now apply (Hk a).
  - apply Hc. now inversion H.
Qed.

Lemma raises_only_comprehension {A B : Type} (e : exception)
  (f : A -> result B) (xs : list A) :
  (forall x, raises_only e (f x)) -> raises_only e (comprehension f xs).
Proof.
  intros Hf. induction xs as [|x xs IH]; simpl.
  - apply raises_only_Ok.
  - apply raises_only_bind; [apply Hf|]. intros y.
    apply raises_only_bind; [exact IH|]. intros ys. apply raises_only_Ok.
Qed.

Lemma comprehension_Forall2 {A B : Type} (f : A -> result B) (xs : list A)
  (ys : list B) :
  Forall2 (fun x y => f x = Ok y) xs ys -> comprehension f xs = Ok ys.
Proof.
  induction 1 as [|x y xs ys Hxy _ IH]; simpl; [reflexivity|].
  now rewrite Hxy, IH.
Qed.

Lemma fst_combine {A B : Type} (xs : list A) (ys : list B) :
  length xs = length ys -> map fst (combine xs ys) = xs.
Proof.
  revert ys. induction xs as [|x xs IH]; intros [|y ys] Hl;
    try discriminate; [reflexivity|].
  cbn. f_equal. apply IH. now injection Hl.
Qed.

Lemma snd_combine {A B : Type} (xs : list A) (ys : list B) :
  length xs = length ys -> map snd (combine xs ys) = ys.
Proof.
  revert ys. induction xs as [|x xs IH]; intros [|y ys] Hl;
    try discriminate; [reflexivity|].
  cbn. f_equal. apply IH. now injection Hl.
Qed.

End PythonFacts.

(** ** [load_embeddings] *)

Module MLFairnessSpec.

Import PythonFacts MLFairness.

Section Numbers.

Context {float64 float32 : Type}.
Variable float : str -> option float64.
Variable np_float32 : float64 -> float32.

#[local] Abbreviation load_embeddings := (load_embeddings float np_float32).
#[local] Abbreviation load_line := (load_line float np_float32).
#[local] Abbreviation parse_row := (parse_row float np_float32).
#[local] Abbreviation well_formed := (well_formed float).
#[local] Abbreviation table_of := (table_of np_float32).

(** The loop keeps the lines that are not header rows and appends, for each,
    its label and its vector; it stops at the first line that raises. *)
Lemma loop_retained (lines : list str) :
  forall (i : nat) (labels : list str) (rows : list (list float32)),
    for_each (enumerate_from i lines) (labels, rows) load_line
    = (rs <- comprehension parse_row (retained lines) ;;
       Ok (labels ++ map fst rs, rows ++ map snd rs)).
Proof.
  induction lines as [|l ls IH]; intros i labels rows.
  - simpl. now rewrite !app_nil_r.
  - cbn [enumerate_from for_each retained filter].
    unfold MLFairness.load_line at 1. fold (items_of l).
    unfold header_row at 1.
    destruct (Nat.eqb (length (items_of l)) 2) eqn:Hhead; cbn [negb bind].
    + apply IH.
    + cbn [comprehension]. fold (retained ls).
      unfold MLFairness.parse_row at 1.
      destruct (getitem (items_of l) 0) as [label|e]; cbn [bind]; [|reflexivity].
      destruct (comprehension (float_ float) (skipn 1 (items_of l))) as [xs|e];
        cbn [bind]; [|reflexivity].
      rewrite IH.
      destruct (comprehension parse_row (retained ls)) as [rs|e];
        cbn [bind map fst snd]; [|reflexivity].
      now rewrite <- !app_assoc.
Qed.

(** [load_embeddings] in one line: open, read the retained rows, stack them,
    label them. *)
Lemma load_embeddings_retained (fs : file_system) (filename : str) :
  load_embeddings fs filename
  = (lines <- open fs filename ;;
     rs <- comprehension parse_row (retained lines) ;;
     arr <- np_vstack (map snd rs) ;;
     pd_DataFrame arr (map fst rs)).
Proof.
  unfold MLFairness.load_embeddings.
  destruct (open fs filename) as [lines|e]; cbn [bind]; [|reflexivity].
  unfold enumerate. rewrite loop_retained.
  destruct (comprehension parse_row (retained lines)) as [rs|e];
    cbn [bind app]; reflexivity.
Qed.

Lemma retained_app (pre post : list str) :
  retained (pre ++ post) = retained pre ++ retained post.
Proof. apply filter_app. Qed.

Lemma retained_all_headers (lines : list str) :
  Forall (fun l => length (split SP (rstrip l)) = 2%nat) lines ->
  retained lines = [].
Proof.
  induction 1 as [|l ls Hl _ IH]; [reflexivity|].
  cbn [retained filter]. unfold header_row, items_of. rewrite Hl.
  exact IH.
Qed.

(** Indexing the items of a line never raises: [split] returns at least one
    piece. *)
Lemma getitem_items (line : str) :
  getitem (items_of line) 0 = Ok (hd [] (items_of line)).
Proof.
  unfold items_of. pose proof (split_not_nil SP (rstrip line)) as Hne.
  destruct (split SP (rstrip line)); [congruence|reflexivity].
Qed.

Lemma parse_row_raises_only (line : str) : raises_only ValueError (parse_row line).
Proof.
  unfold MLFairness.parse_row. rewrite getitem_items. cbn [bind].
  apply raises_only_bind.
  - apply raises_only_comprehension. intros x e' H.
    unfold float_ in H. destruct (float x); [discriminate|now inversion H].
  - intros xs. apply raises_only_Ok.
Qed.

Lemma np_vstack_raises_only (rows : list (list float32)) :
  raises_only ValueError (np_vstack rows).
Proof.
  intros e' H. unfold np_vstack in H.
  destruct rows as [|r rs]; [now inversion H|].
  destruct (forallb _ rs); [discriminate|now inversion H].
Qed.

Lemma pd_DataFrame_raises_only (arr : list (list float32)) (labels : list str) :
  raises_only ValueError (pd_DataFrame arr labels).
Proof.
  intros e' H. unfold pd_DataFrame in H.
  destruct (Nat.eqb _ _); [discriminate|now inversion H].
Qed.

(** Stacking succeeds on at least one row when all rows have one length. *)
Lemma np_vstack_rectangular (rows : list (list float32)) (d : nat) :
  rows <> [] -> Forall (fun r => length r = d) rows -> np_vstack rows = Ok rows.
Proof.
  intros Hne Hall. destruct rows as [|r rs]; [congruence|].
  inversion Hall as [|? ? Hr Hrs]; subst. unfold np_vstack.
  replace (forallb _ rs) with true; [reflexivity|].
  symmetry. apply forallb_forall. intros r' Hin.
  rewrite Forall_forall in Hrs. rewrite (Hrs r' Hin). apply Nat.eqb_refl.
Qed.

(** A tidy line is a header row exactly when it has two fields. *)
Lemma header_row_line (fields : list str) (l : str) :
  tidy fields -> line_of fields l ->
  header_row l = Nat.eqb (length fields) 2.
Proof.
  intros Ht Hl. unfold header_row, items_of.
  now rewrite (split_rstrip_line fields l Ht Hl).
Qed.

(** What the loop appends for a tidy line with numeric fields. *)
Lemma parse_row_line (fields : list str) (l : str) (vs : list float64) :
  tidy fields -> line_of fields l -> Forall2 (numeric float) (tl fields) vs ->
  parse_row l = Ok (hd [] fields, np_array_f np_float32 vs).
Proof.
  intros Ht Hl Hvs. unfold MLFairness.parse_row.
  rewrite getitem_items. unfold items_of.
  rewrite (split_rstrip_line fields l Ht Hl). cbn [bind].
  replace (skipn 1 fields) with (tl fields) by now destruct fields.
  rewrite (comprehension_Forall2 (float_ float) (tl fields) vs).
  - reflexivity.
  - eapply Forall2_impl; [|exact Hvs].
    intros x v Hx. unfold float_. unfold numeric in Hx. now rewrite Hx.
Qed.

(** The rows read from a well-formed file. *)
Lemma retained_well_formed (lines : list str) (entries : list (list str))
  (values : list (list float64)) :
  well_formed lines entries values ->
  comprehension parse_row (retained lines)
  = Ok (combine (map (hd []) (data_rows entries))
                (map (np_array_f np_float32) values)).
Proof.
  intros (Hlines & Htidy & Hnum).
  revert values Hnum Htidy.
  induction Hlines as [|e l es ls Hl _ IH]; intros values Hnum Htidy.
  - cbn in Hnum. inversion Hnum; subst. reflexivity.
  - inversion Htidy as [|? ? He Hes]; subst.
    cbn [retained filter data_rows] in *.
    rewrite (header_row_line e l He Hl).
    destruct (Nat.eqb (length e) 2) eqn:Hhead; cbn [negb] in *.
    + now apply IH.
    + inversion Hnum as [|? vs ? values' Hvs Hrest]; subst.
      cbn [comprehension map combine].
      rewrite (parse_row_line e l vs He Hl Hvs). cbn [bind].
      fold (retained ls). rewrite (IH values' Hrest Hes). reflexivity.
Qed.

(** A line of a word and one number is a header row to the loop. *)
Lemma one_dimensional_row_is_header (w x l : str) :
  tidy [w; x] -> line_of [w; x] l -> header_row l = true.
Proof. intros Ht Hl. now rewrite (header_row_line [w; x] l Ht Hl). Qed.

(** C3.  When no file has the name [filename], [load_embeddings] raises
    [FileNotFoundError]: it is the exception of [open], which nothing
    catches or wraps, and no table is returned. *)
Theorem load_embeddings_missing_file (fs : file_system) (filename : str) :
  fs filename = None ->
  open fs filename = Raise FileNotFoundError
  /\ load_embeddings fs filename = Raise FileNotFoundError.
Proof.
  intros Hnone. unfold MLFairness.load_embeddings, open.
  rewrite Hnone. split; reflexivity.
Qed.

(** C9.  A line that splits into exactly two fields is skipped wherever it
    stands: the file with the line and the file without it load alike, so
    the line gives the table neither a label nor a vector. *)
Theorem two_field_line_skipped (fs1 fs2 : file_system) (name1 name2 : str)
  (pre post : list str) (l : str) :
  open fs1 name1 = Ok (pre ++ l :: post) ->
  open fs2 name2 = Ok (pre ++ post) ->
  length (split SP (rstrip l)) = 2%nat ->
  load_embeddings fs1 name1 = load_embeddings fs2 name2.
Proof.
  intros H1 H2 Hl. rewrite !load_embeddings_retained, H1, H2. cbn [bind].
  rewrite !retained_app. cbn [retained filter].
  unfold header_row, items_of. rewrite Hl. reflexivity.
Qed.

(** C10.  On a file with no line, or with two-field lines only, the loop ends
    with no row, [np.vstack] raises on the empty list, and so
    [load_embeddings] raises [ValueError] and returns no table, empty or
    not. *)
Theorem load_embeddings_no_rows (fs : file_system) (filename : str)
  (lines : list str) :
  open fs filename = Ok lines ->
  Forall (fun l => length (split SP (rstrip l)) = 2%nat) lines ->
  for_each (enumerate lines) ([], []) load_line = Ok ([], [])
  /\ np_vstack (@nil (list float32)) = Raise ValueError
  /\ load_embeddings fs filename = Raise ValueError.
Proof.
  intros Hopen Hall. split; [|split].
  - unfold enumerate. rewrite loop_retained.
    now rewrite (retained_all_headers lines Hall).
  - reflexivity.
  - rewrite load_embeddings_retained, Hopen. cbn [bind].
    now rewrite (retained_all_headers lines Hall).
Qed.

(** What the loop appends for a line whose items after the first are
    numeric. *)
Lemma parse_row_numeric (l : str) (vs : list float64) :
  Forall2 (numeric float) (tl (items_of l)) vs ->
  parse_row l = Ok (hd [] (items_of l), np_array_f np_float32 vs).
Proof.
  intros Hvs. unfold MLFairness.parse_row.
  rewrite getitem_items. cbn [bind].
  replace (skipn 1 (items_of l)) with (tl (items_of l))
    by now destruct (items_of l).
  rewrite (comprehension_Forall2 (float_ float) (tl (items_of l)) vs).
  - reflexivity.
  - eapply Forall2_impl; [|exact Hvs].
    intros x v Hx. unfold float_. unfold numeric in Hx. now rewrite Hx.
Qed.

Lemma retained_numeric (lines : list str) (values : list (list float64)) :
  Forall2 (fun l vs => Forall2 (numeric float) (tl (items_of l)) vs)
    (retained lines) values ->
  comprehension parse_row (retained lines)
  = Ok (combine (map (fun l => hd [] (items_of l)) (retained lines))
                (map (np_array_f np_float32) values)).
Proof.
  induction 1 as [|l vs ls values' Hl _ IH]; [reflexivity|].
  cbn [comprehension map combine].
  rewrite (parse_row_numeric l vs Hl). cbn [bind]. now rewrite IH.
Qed.

(** The data rows of a well-formed file are numeric: the lines that the loop
    keeps have, after their first item, only items that [float] reads. *)
Lemma well_formed_numeric (lines : list str) (entries : list (list str))
  (values : list (list float64)) :
  well_formed lines entries values ->
  Forall2 (fun l vs => Forall2 (numeric float) (tl (split SP (rstrip l))) vs)
    (retained lines) values.
Proof.
  intros (Hlines & Htidy & Hnum).
  revert values Hnum Htidy.
  induction Hlines as [|e l es ls Hl _ IH]; intros values Hnum Htidy.
  - cbn in Hnum. inversion Hnum; subst. constructor.
  - inversion Htidy as [|? ? He Hes]; subst.
    cbn [retained filter data_rows] in *.
    rewrite (header_row_line e l He Hl).
    destruct (Nat.eqb (length e) 2) eqn:Hhead; cbn [negb] in *.
    + now apply IH.
    + inversion Hnum as [|? vs ? values' Hvs Hrest]; subst.
      constructor; [|now apply IH].
      now rewrite (split_rstrip_line e l He Hl).
Qed.

(** C5, amended.  Take a file that opens, in which every line that does not
    split into exactly two items has, after its first item, only items that
    [float] reads; let there be at least one such line, and let all such
    lines have the same number of items.  Then [load_embeddings] returns the
    table whose labels are, in the order of the file, the first items of
    those lines, and whose rows are their other items as [float] reads them,
    each stored as a [float32].  The items of a line are its pieces between
    single spaces, the white space that ends the line apart. *)
Theorem load_embeddings_well_formed (fs : file_system) (filename : str)
  (lines : list str) (values : list (list float64)) (d : nat) :
  open fs filename = Ok lines ->
  Forall2 (fun l vs => Forall2 (fun x v => float x = Some v)
                         (tl (split SP (rstrip l))) vs)
    (filter (fun l => negb (Nat.eqb (length (split SP (rstrip l))) 2)) lines)
    values ->
  values <> [] ->
  Forall (fun vs => length vs = d) values ->
  load_embeddings fs filename
  = Ok {| index := map (fun l => hd [] (split SP (rstrip l)))
                     (filter (fun l => negb (Nat.eqb (length (split SP (rstrip l))) 2))
                        lines);
          values := map (map np_float32) values |}.
Proof.
  intros Hopen Hnum Hne Hrect.
  rewrite load_embeddings_retained, Hopen. cbn [bind].
  rewrite (retained_numeric lines values Hnum). cbn [bind].
  set (labels := map (fun l => hd [] (items_of l)) (retained lines)).
  set (rows := map (np_array_f np_float32) values).
  assert (Hlen : length labels = length rows).
  { unfold labels, rows. rewrite !length_map.
    eapply Forall2_length. exact Hnum. }
  change str with (list char).
  rewrite (fst_combine _ _ Hlen), (snd_combine _ _ Hlen).
  rewrite (np_vstack_rectangular rows d).
  - cbn [bind]. unfold pd_DataFrame. rewrite <- Hlen, Nat.eqb_refl. reflexivity.
  - unfold rows. destruct values; [congruence|discriminate].
  - unfold rows. apply Forall_map. eapply Forall_impl; [|exact Hrect].
    intros vs Hvs. unfold np_array_f. now rewrite length_map.
Qed.

(** The exceptions of [load_embeddings]: [FileNotFoundError] exactly when the
    file is missing, and otherwise [ValueError] only. *)
Lemma load_embeddings_raises (fs : file_system) (filename : str) :
  (load_embeddings fs filename = Raise FileNotFoundError <-> fs filename = None)
  /\ (forall e, load_embeddings fs filename = Raise e ->
                e = FileNotFoundError \/ e = ValueError).
Proof.
  assert (Hsome : forall content, fs filename = Some content ->
                  raises_only ValueError (load_embeddings fs filename)).
  { intros content Hc. rewrite load_embeddings_retained. unfold open.
    rewrite Hc. cbn [bind].
    apply raises_only_bind.
    - apply raises_only_comprehension. apply parse_row_raises_only.
    - intros rs. apply raises_only_bind; [apply np_vstack_raises_only|].
      intros arr. apply pd_DataFrame_raises_only. }
  assert (Hnone : fs filename = None ->
                  load_embeddings fs filename = Raise FileNotFoundError).
  { intros Hc. unfold MLFairness.load_embeddings, open. now rewrite Hc. }
  split; [split|].
  - intros Hraise. destruct (fs filename) as [content|] eqn:Hc; [|reflexivity].
    specialize (Hsome content eq_refl _ Hraise). discriminate.
  - exact Hnone.
  - intros e Hraise. destruct (fs filename) as [content|] eqn:Hc.
    + right. exact (Hsome content eq_refl _ Hraise).
    + left. rewrite (Hnone eq_refl) in Hraise. now inversion Hraise.
Qed.

End Numbers.

(** *** Closed instances, on the reading of decimal digits *)

Example load_small_vectors :
  load_digits (single_file glove small_vectors) glove
  = Ok {| index := [text "cat"; text "dog"];
          values := [[1; 2]; [3; 4]]%float |}.
Proof. reflexivity. Qed.

Example load_vectors_with_cat :
  load_digits (single_file glove vectors_with_cat) glove
  = Ok {| index := [text "dog"; text "owl"];
          values := [[1; 2]; [3; 4]]%float |}.
Proof. reflexivity. Qed.

Example load_header_only :
  load_digits (single_file glove header_only) glove = Raise ValueError.
Proof. reflexivity. Qed.

(** A field that is no number: [float] raises. *)
Example load_bad_field :
  load_digits (single_file glove vectors_with_bad_field) glove
  = Raise ValueError.
Proof. reflexivity. Qed.

(** A blank line is kept, as the label [''] with no value. *)
Example load_blank_line :
  load_digits (single_file glove vectors_with_blank_line) glove
  = Raise ValueError.
Proof. reflexivity. Qed.

Ltac line_end :=
  exists [LF]; split; [repeat constructor | reflexivity].

Ltac tidy_fields :=
  split; [discriminate | split; [repeat constructor | right; discriminate]].

Ltac well_formed_file :=
  split; [| split];
  [ repeat (apply Forall2_cons; [line_end |]); apply Forall2_nil
  | repeat (apply Forall_cons; [tidy_fields |]); apply Forall_nil
  | repeat constructor ].

Lemma load_embeddings_missing_file_witness :
  open (single_file (text "vectors.txt") small_vectors) glove
  = Raise FileNotFoundError
  /\ load_digits (single_file (text "vectors.txt") small_vectors) glove
     = Raise FileNotFoundError.
Proof.
  apply (load_embeddings_missing_file float_of_digits float32_of_small).
  reflexivity.
Defined.

Lemma two_field_line_skipped_witness :
  length (split SP (rstrip (line "cat 5"))) = 2%nat
  /\ load_digits (single_file glove vectors_with_cat) glove
     = load_digits (single_file glove vectors_without_cat) glove.
Proof.
  split; [reflexivity|].
  apply (two_field_line_skipped float_of_digits float32_of_small
           _ _ _ _ [line "dog 1 2"] [line "owl 3 4"] (line "cat 5"));
    reflexivity.
Defined.

Lemma load_embeddings_no_rows_witness :
  for_each (enumerate [line "400000 300"]) ([], [])
    (load_line float_of_digits float32_of_small) = Ok ([], [])
  /\ np_vstack (@nil (list PrimFloat.float)) = Raise ValueError
  /\ load_digits (single_file glove header_only) glove = Raise ValueError.
Proof.
  apply (load_embeddings_no_rows float_of_digits float32_of_small
           (single_file glove header_only) glove [line "400000 300"]).
  - reflexivity.
  - repeat constructor.
Defined.

(** C5 as it is stated fails here: every line of the file is a word followed
    by numeric fields, single spaces between them, and the call raises
    [ValueError], the two vectors having three and four fields. *)
Lemma ragged_file_raises :
  open (single_file glove ragged_vectors) glove
  = Ok [line "cat 1 2 3"; line "dog 4 5 6 7"]
  /\ well_formed float_of_digits
       [line "cat 1 2 3"; line "dog 4 5 6 7"]
       [[text "cat"; text "1"; text "2"; text "3"];
        [text "dog"; text "4"; text "5"; text "6"; text "7"]]
       [[1; 2; 3]; [4; 5; 6; 7]]%float
  /\ load_digits (single_file glove ragged_vectors) glove = Raise ValueError.
Proof.
  split; [reflexivity|]. split; [|reflexivity].
  well_formed_file.
Qed.

Lemma load_embeddings_well_formed_witness :
  load_digits (single_file glove vectors_with_other_spaces) glove
  = Ok {| index := [(text "New" ++ [160%N] ++ text "York")%list; text "dog"];
          values := [[1; 2]; [3; 4]]%float |}.
Proof.
  apply (load_embeddings_well_formed float_of_digits float32_of_small
           (single_file glove vectors_with_other_spaces) glove
           [tab_line; new_york_line; line "dog 3 4"]
           [[1; 2]; [3; 4]]%float 2).
  - reflexivity.
  - repeat constructor.
  - discriminate.
  - repeat constructor.
Defined.


End MLFairnessSpec.

(** ** [run] *)

Module CNNSpec.

Import CNN.

#[local] Open Scope Z_scope.
#[local] Open Scope keras_scope.

Lemma keras_layers_bind {B : Type} (l : layer) (xs : list tensor)
  (k : tensor -> M B) (tr : list event) :
  bindM (keras_layers l xs) k tr = k (output_of l xs) (tr ++ [layer_call l]).
Proof. reflexivity. Qed.

Lemma emit_bind {B : Type} (e : event) (k : unit -> M B) (tr : list event) :
  bindM (emit e) k tr = k tt (tr ++ [e]).
Proof. reflexivity. Qed.

(** The loop over the zipped pairs: one convolution and one pooling layer
    for each pair, in order, each pooled branch appended to the list. *)
Lemma conv_loop (h : tensor) (pairs : list (Z * Z)) :
  forall (acc : list tensor) (tr : list event),
    for_in pairs acc
      (fun '(filters, kernel_size) conv_layers_for_all_kernel_sizes =>
         conv_layer <- keras_layers (Conv1D filters kernel_size relu) [h] ;;
         conv_layer <- keras_layers GlobalMaxPooling1D [conv_layer] ;;
         ret (conv_layers_for_all_kernel_sizes ++ [conv_layer])) tr
    = (Ok (acc ++ map (conv_pool h) pairs),
       tr ++ map layer_call (conv_pool_layers pairs)).
Proof.
  induction pairs as [|[f k] ps IH]; intros acc tr.
  - cbn. now rewrite !app_nil_r.
  - cbn [for_in]. unfold bindM at 1. rewrite !keras_layers_bind.
    unfold ret at 1. rewrite IH.
    cbn [map conv_pool_layers flat_map app fst snd].
    rewrite <- !app_assoc. reflexivity.
Qed.

(** The loop over the dense dimensions. *)
Lemma dense_loop (dims : list Z) :
  forall (h : tensor) (tr : list event),
    for_in dims h (fun dim h => keras_layers (Dense dim relu) [h]) tr
    = (Ok (dense_stack dims h),
       tr ++ map (fun dim => layer_call (Dense dim relu)) dims).
Proof.
  induction dims as [|d ds IH]; intros h tr.
  - cbn. now rewrite app_nil_r.
  - cbn [for_in]. unfold bindM at 1. unfold keras_layers at 1.
    unfold bindM at 1. unfold emit, ret at 1. rewrite IH.
    cbn [map dense_stack fold_left]. rewrite <- app_assoc. reflexivity.
Qed.

(** What a call of [run] does, in full.  With [dropout_rate] bound it builds
    the network, compiles it, prints the hyperparameters, resets and fits;
    with [dropout_rate] unbound it raises [NameError] after the
    concatenation, the layers built so far being all it has done. *)
Lemma run_body_trace (g : namespace) (hp : hyperparameters) :
  run_body g hp []
  = match dropout_rate g with
    | Some rate =>
        (Ok (network g hp rate),
         map layer_call (layers_to_concatenate g hp ++ layers_from_dropout g hp rate)
         ++ [compile (network g hp rate) "adam" "sparse_categorical_crossentropy"
               ["accuracy"%string];
             print (configuration hp);
             reset_states (network g hp rate);
             fit (network g hp rate) (train_x g) (train_y g) (hp_epochs hp)])
    | None => (Raise NameError, map layer_call (layers_to_concatenate g hp))
    end.
Proof.
  unfold run_body. rewrite !keras_layers_bind.
  unfold bindM at 1. rewrite conv_loop. rewrite keras_layers_bind.
  unfold bindM at 1.
  destruct (dropout_rate g) as [rate|]; cbn [global].
  - unfold ret at 1. rewrite keras_layers_bind.
    unfold bindM at 1. rewrite dense_loop. rewrite keras_layers_bind.
    rewrite !emit_bind. unfold ret.
    unfold layers_to_concatenate, layers_from_dropout.
    rewrite !map_app, map_map. cbn [map app].
    repeat (rewrite <- !app_assoc; cbn [app]). reflexivity.
  - unfold raise. unfold layers_to_concatenate.
    rewrite !map_app. cbn [map app]. rewrite <- ?app_assoc. reflexivity.
Qed.

Lemma call_run_trace (g : namespace) (kw : keywords) :
  call_run g kw
  = match dropout_rate g with
    | Some rate =>
        (Ok (network g (signature kw) rate),
         map layer_call (layers_to_concatenate g (signature kw)
                         ++ layers_from_dropout g (signature kw) rate)
         ++ [compile (network g (signature kw) rate) "adam"
               "sparse_categorical_crossentropy" ["accuracy"%string];
             print (configuration (signature kw));
             reset_states (network g (signature kw) rate);
             fit (network g (signature kw) rate) (train_x g) (train_y g)
               (hp_epochs (signature kw))])
    | None =>
        (Raise NameError, map layer_call (layers_to_concatenate g (signature kw)))
    end.
Proof. unfold call_run, run. apply run_body_trace. Qed.

Lemma layer_calls_app (tr1 tr2 : list event) :
  layer_calls (tr1 ++ tr2) = layer_calls tr1 ++ layer_calls tr2.
Proof. unfold layer_calls. apply flat_map_app. Qed.

Lemma layer_calls_map (ls : list layer) : layer_calls (map layer_call ls) = ls.
Proof.
  induction ls as [|l ls IH]; [reflexivity|].
  cbn. f_equal. exact IH.
Qed.

(** The layers that a call constructs, whether it goes through or not. *)
Lemma layer_calls_call_run (g : namespace) (kw : keywords) :
  layer_calls (snd (call_run g kw))
  = layers_to_concatenate g (signature kw)
    ++ match dropout_rate g with
       | Some rate => layers_from_dropout g (signature kw) rate
       | None => []
       end.
Proof.
  rewrite call_run_trace. destruct (dropout_rate g) as [rate|]; cbn [snd].
  - rewrite layer_calls_app, layer_calls_map. cbn. now rewrite app_nil_r.
  - now rewrite layer_calls_map, app_nil_r.
Qed.

Lemma conv1d_conv_pool_layers (pairs : list (Z * Z)) :
  filter (fun l => match l with Conv1D _ _ _ => true | _ => false end)
    (conv_pool_layers pairs)
  = map (fun p => Conv1D (fst p) (snd p) relu) pairs.
Proof.
  induction pairs as [|p ps IH]; [reflexivity|].
  cbn. f_equal. exact IH.
Qed.

Lemma conv1d_dense (dims : list Z) :
  filter (fun l => match l with Conv1D _ _ _ => true | _ => false end)
    (map (fun dim => Dense dim relu) dims) = [].
Proof. induction dims as [|d ds IH]; [reflexivity|exact IH]. Qed.

Lemma dropout_conv_pool_layers (pairs : list (Z * Z)) :
  filter (fun l => match l with Dropout _ => true | _ => false end)
    (conv_pool_layers pairs) = [].
Proof. induction pairs as [|p ps IH]; [reflexivity|exact IH]. Qed.

Lemma dropout_dense (dims : list Z) :
  filter (fun l => match l with Dropout _ => true | _ => false end)
    (map (fun dim => Dense dim relu) dims) = [].
Proof. induction dims as [|d ds IH]; [reflexivity|exact IH]. Qed.

Example conv1d_of_model3 (g : namespace) :
  num_filters model3 = Some [2; 2; 2] /\ kernel_sizes model3 = Some [2; 4; 8]
  /\ layer_calls (snd (call_run g model3))
     = [Input (max_len g); Embedding (ds_vocab_size g) 100 (max_len g);
        Conv1D 2 2 relu; GlobalMaxPooling1D;
        Conv1D 4 2 relu; GlobalMaxPooling1D;
        Conv1D 8 2 relu; GlobalMaxPooling1D;
        concatenate 1]
       ++ match dropout_rate g with
          | Some rate =>
              [Dropout rate; Dense 128 relu; Dense 128 relu;
               Dense (num_classes g) softmax]
          | None => []
          end.
Proof.
  split; [reflexivity|]. split; [reflexivity|].
  rewrite layer_calls_call_run. reflexivity.
Qed.

(** Fewer filters than kernel sizes: [zip] stops at the shorter list. *)
Example conv1d_of_short_num_filters (g : namespace) :
  conv1d_layers
    (snd (call_run g
            {| epochs := None; embed_dim := None; num_filters := Some [2];
               kernel_sizes := Some [2; 3; 4]; dense_layer_dims := None;
               dropout := None |}))
  = [Conv1D 2 2 relu].
Proof.
  unfold conv1d_layers. rewrite layer_calls_call_run.
  destruct (dropout_rate g); reflexivity.
Qed.

(** C1, as the code has it.  The loop header reads
    [for filters, kernel_size in zip(kernel_sizes, num_filters)], so the
    [Conv1D] of the i-th branch is given [filters = kernel_sizes[i]] and
    [kernel_size = num_filters[i]], the two the other way round from what the
    claim says, and there are as many branches as the shorter list has
    entries.  With the defaults [num_filters = [2, 2, 2]] and
    [kernel_sizes = [2, 3, 4]] the three layers have 2, 3 and 4 filters, each
    of size 2, where the claim has 2 filters each, of sizes 2, 3 and 4. *)
Theorem conv1d_arguments_swapped (g : namespace) :
  (forall kw : keywords,
     conv1d_layers (snd (call_run g kw))
     = map (fun p => Conv1D (fst p) (snd p) relu)
         (zip (hp_kernel_sizes (signature kw)) (hp_num_filters (signature kw))))
  /\ conv1d_layers (snd (call_run g no_keywords))
     = [Conv1D 2 2 relu; Conv1D 3 2 relu; Conv1D 4 2 relu].
Proof.
  assert (H : forall kw : keywords,
     conv1d_layers (snd (call_run g kw))
     = map (fun p => Conv1D (fst p) (snd p) relu)
         (zip (hp_kernel_sizes (signature kw)) (hp_num_filters (signature kw)))).
  { intros kw. unfold conv1d_layers. rewrite layer_calls_call_run.
    unfold layers_to_concatenate, layers_from_dropout.
    rewrite !filter_app, conv1d_conv_pool_layers.
    destruct (dropout_rate g) as [rate|]; cbn [filter app].
    - rewrite filter_app, conv1d_dense. cbn [filter app].
      now rewrite !app_nil_r.
    - now rewrite !app_nil_r. }
  split; [exact H|]. rewrite H. reflexivity.
Qed.

(** C2, as the code has it.  The layer is built by
    [Dropout(rate=dropout_rate)]: its rate is the global [dropout_rate],
    whatever the argument [dropout] of the call, and with the global unbound
    no [Dropout] layer is built at all.  So the call of [model2], with
    [dropout=0.7], in a namespace where [dropout_rate] is [0.4], drops out at
    [0.4]. *)
Theorem dropout_rate_is_the_global (g : namespace) (kw : keywords) :
  dropout_layers (snd (call_run g kw))
  = match dropout_rate g with
    | Some rate => [Dropout rate]
    | None => []
    end
  /\ dropout model2 = Some 0.7%float
  /\ dropout_layers (snd (call_run (sst_namespace (Some 0.4%float)) model2))
     = [Dropout 0.4%float]
  /\ PrimFloat.eqb 0.7 0.4 = false.
Proof.
  assert (H : forall g kw, dropout_layers (snd (call_run g kw))
              = match dropout_rate g with
                | Some rate => [Dropout rate]
                | None => []
                end).
  { intros g' kw'. unfold dropout_layers. rewrite layer_calls_call_run.
    unfold layers_to_concatenate, layers_from_dropout.
    rewrite !filter_app, dropout_conv_pool_layers.
    destruct (dropout_rate g') as [rate|]; cbn [filter app].
    - rewrite filter_app, dropout_dense. reflexivity.
    - reflexivity. }
  split; [apply H|]. split; [reflexivity|]. rewrite H. split; reflexivity.
Qed.

(** C6, as the code has it when nothing binds [dropout_rate] (no cell of the
    notebook does): the call raises [NameError] where it reads the name,
    after the concatenation; no [Dropout] layer, no [Dense] layer and no
    output layer is built, and nothing is compiled or fitted. *)
Theorem run_raises_NameError (g : namespace) (kw : keywords) :
  dropout_rate g = None ->
  call_run g kw
  = (Raise NameError, map layer_call (layers_to_concatenate g (signature kw))).
Proof. intros Hg. rewrite call_run_trace, Hg. reflexivity. Qed.

Lemma run_raises_NameError_witness :
  call_run (sst_namespace None) model1
  = (Raise NameError,
     [layer_call (Input 40); layer_call (Embedding 16474 50 40);
      layer_call (Conv1D 2 2 relu); layer_call GlobalMaxPooling1D;
      layer_call (Conv1D 3 2 relu); layer_call GlobalMaxPooling1D;
      layer_call (Conv1D 4 2 relu); layer_call GlobalMaxPooling1D;
      layer_call (concatenate 1)]).
Proof. apply (run_raises_NameError (sst_namespace None) model1). reflexivity. Defined.

(** C7, as the code has it when nothing binds [dropout_rate]: the call raises
    [NameError] before it reaches [print], so all it has done is construct
    layers; no configuration is printed. *)
Theorem run_prints_nothing (g : namespace) (kw : keywords) :
  dropout_rate g = None ->
  fst (call_run g kw) = Raise NameError
  /\ (forall e, In e (snd (call_run g kw)) -> exists l, e = layer_call l).
Proof.
  intros Hg. rewrite call_run_trace, Hg. cbn [fst snd]. split; [reflexivity|].
  intros e Hin. apply in_map_iff in Hin as (l & <- & _). now exists l.
Qed.

Lemma run_prints_nothing_witness :
  fst (call_run (sst_namespace None) model9) = Raise NameError
  /\ (forall e, In e (snd (call_run (sst_namespace None) model9)) ->
      exists l, e = layer_call l).
Proof. apply (run_prints_nothing (sst_namespace None) model9). reflexivity. Defined.

(** X3.  The nine tuning cells are nine calls of [run] with literal arguments,
    no two calls with the same ones; the dictionaries they print, defaults
    filled in, are the ones the notebook shows under the cells. *)
Theorem tuning_cells_differ :
  NoDup tuning_cells
  /\ map (fun kw => configuration (signature kw)) tuning_cells
     = [ [("epochs", Int 10); ("embed_dim", Int 50);
          ("num_filters", Ints [2; 2; 2]); ("kernel_sizes", Ints [2; 3; 4]);
          ("dense_layer_dims", Ints [512; 256]); ("dropout", Float 0.4)];
         [("epochs", Int 10); ("embed_dim", Int 100);
          ("num_filters", Ints [2; 2; 2]); ("kernel_sizes", Ints [2; 3; 4]);
          ("dense_layer_dims", Ints [256; 256]); ("dropout", Float 0.7)];
         [("epochs", Int 10); ("embed_dim", Int 100);
          ("num_filters", Ints [2; 2; 2]); ("kernel_sizes", Ints [2; 4; 8]);
          ("dense_layer_dims", Ints [128; 128]); ("dropout", Float 0.7)];
         [("epochs", Int 10); ("embed_dim", Int 100);
          ("num_filters", Ints [2; 2; 2]); ("kernel_sizes", Ints [2; 4; 8]);
          ("dense_layer_dims", Ints [64; 32]); ("dropout", Float 0.8)];
         [("epochs", Int 5); ("embed_dim", Int 100);
          ("num_filters", Ints [2; 2; 2]); ("kernel_sizes", Ints [2; 4; 8]);
          ("dense_layer_dims", Ints [64; 32]); ("dropout", Float 0.8)];
         [("epochs", Int 5); ("embed_dim", Int 50);
          ("num_filters", Ints [2; 2; 2]); ("kernel_sizes", Ints [2; 4; 6]);
          ("dense_layer_dims", Ints [128; 64]); ("dropout", Float 0.7)];
         [("epochs", Int 5); ("embed_dim", Int 100);
          ("num_filters", Ints [2; 2; 2]); ("kernel_sizes", Ints [2; 4; 6]);
          ("dense_layer_dims", Ints [64; 32]); ("dropout", Float 0.6)];
         [("epochs", Int 5); ("embed_dim", Int 100);
          ("num_filters", Ints [2; 2; 2]); ("kernel_sizes", Ints [2; 4; 6]);
          ("dense_layer_dims", Ints [128; 64]); ("dropout", Float 0.8)];
         [("epochs", Int 5); ("embed_dim", Int 25);
          ("num_filters", Ints [2; 2; 2]); ("kernel_sizes", Ints [2; 4; 6]);
          ("dense_layer_dims", Ints [128; 64]); ("dropout", Float 0.8)] ]%string.
Proof.
  split; [|reflexivity].
  apply (NoDup_map_inv
           (fun kw => (epochs kw, embed_dim kw, kernel_sizes kw, dense_layer_dims kw))).
  cbn. repeat (constructor; [cbn; intuition discriminate|]). constructor.
Qed.

End CNNSpec.

(** ** The table that [load_embeddings] returns, and when it returns none *)

Module LoadedTable.

Import PythonFacts MLFairness Files.

Section Numbers.

Context {float64 float32 : Type}.
Variable float : str -> option float64.
Variable np_float32 : float64 -> float32.

#[local] Abbreviation load_embeddings := (load_embeddings float np_float32).
#[local] Abbreviation parse_row := (parse_row float np_float32).

Lemma comprehension_Ok {A B : Type} (f : A -> result B) (xs : list A) :
  forall ys, comprehension f xs = Ok ys -> Forall2 (fun x y => f x = Ok y) xs ys.
Proof.
  induction xs as [|x xs IH]; intros ys H; cbn in H.
  - inversion H. constructor.
  - destruct (f x) as [y|e] eqn:Hx; cbn in H; [|discriminate].
    destruct (comprehension f xs) as [ys'|e]; cbn in H; [|discriminate].
    inversion H; subst. constructor; [exact Hx|now apply IH].
Qed.

Lemma comprehension_raises {A B : Type} (f : A -> result B) (e : exception)
  (xs : list A) (x : A) :
  (forall y, raises_only e (f y)) -> In x xs -> f x = Raise e ->
  comprehension f xs = Raise e.
Proof.
  intros Honly Hin Hx. induction xs as [|y ys IH]; [contradiction|].
  cbn. destruct (f y) as [b|e'] eqn:Hy; cbn.
  - destruct Hin as [->|Hin]; [congruence|].
    now rewrite (IH Hin).
  - now rewrite (Honly y e' Hy).
Qed.

Lemma np_vstack_Ok (rows arr : list (list float32)) :
  np_vstack rows = Ok arr ->
  arr = rows /\ rows <> [] /\ exists d, Forall (fun r => length r = d) rows.
Proof.
  unfold np_vstack. destruct rows as [|r rs]; [discriminate|].
  destruct (forallb _ rs) eqn:Hall; [|discriminate].
  intros H. inversion H; subst. split; [reflexivity|]. split; [discriminate|].
  exists (length r). constructor; [reflexivity|].
  rewrite forallb_forall in Hall. apply Forall_forall. intros r' Hin.
  now apply Nat.eqb_eq, Hall.
Qed.

(** What a returned table was made from. *)
Lemma load_embeddings_Ok (fs : file_system) (filename : str)
  (lines : list str) (df : DataFrame float32) :
  open fs filename = Ok lines ->
  load_embeddings fs filename = Ok df ->
  exists rs,
    comprehension parse_row (retained lines) = Ok rs
    /\ rs <> []
    /\ (exists d, Forall (fun r => length r = d) (map snd rs))
    /\ df = {| index := map fst rs; values := map snd rs |}.
Proof.
  intros Hopen Hload.
  rewrite (MLFairnessSpec.load_embeddings_retained float np_float32) in Hload.
  rewrite Hopen in Hload. cbn [bind] in Hload.
  destruct (comprehension parse_row (retained lines)) as [rs|e] eqn:Hrs;
    cbn [bind] in Hload; [|discriminate].
  destruct (np_vstack (map snd rs)) as [arr|e] eqn:Harr;
    cbn [bind] in Hload; [|discriminate].
  apply np_vstack_Ok in Harr as (-> & Hne & Hrect).
  unfold pd_DataFrame in Hload.
  destruct (Nat.eqb _ _); [|discriminate].
  inversion Hload; subst. exists rs. split; [reflexivity|].
  split; [|split; [exact Hrect|reflexivity]].
  intros ->. now apply Hne.
Qed.

(** What a parsed row holds. *)
Lemma parse_row_Ok (l : str) (label : str) (row : list float32) :
  parse_row l = Ok (label, row) ->
  label = hd [] (items_of l)
  /\ exists xs, Forall2 (numeric float) (tl (items_of l)) xs
               /\ row = np_array_f np_float32 xs.
Proof.
  unfold MLFairness.parse_row.
  rewrite (MLFairnessSpec.getitem_items l). cbn [bind].
  replace (skipn 1 (items_of l)) with (tl (items_of l))
    by now destruct (items_of l).
  destruct (comprehension (float_ float) (tl (items_of l))) as [xs|e] eqn:Hxs;
    cbn [bind]; [|discriminate].
  intros H. inversion H; subst. split; [reflexivity|].
  exists xs. split; [|reflexivity].
  apply comprehension_Ok in Hxs.
  eapply Forall2_impl; [|exact Hxs].
  intros x v Hx. unfold float_ in Hx. unfold numeric.
  destruct (float x); [now inversion Hx|discriminate].
Qed.

Lemma parse_row_items (l : str) (label : str) (row : list float32) :
  parse_row l = Ok (label, row) -> length (items_of l) = S (length row).
Proof.
  intros H. apply parse_row_Ok in H as (_ & xs & Hxs & ->).
  apply Forall2_length in Hxs. unfold np_array_f. rewrite length_map, <- Hxs.
  unfold items_of. pose proof (split_not_nil SP (rstrip l)) as Hne.
  destruct (split SP (rstrip l)); [congruence|reflexivity].
Qed.

(** On a file that exists [load_embeddings] returns a table or raises
    [ValueError]. *)
Lemma load_embeddings_Ok_or_ValueError (fs : file_system) (filename : str)
  (lines : list str) :
  open fs filename = Ok lines ->
  (exists df, load_embeddings fs filename = Ok df)
  \/ load_embeddings fs filename = Raise ValueError.
Proof.
  intros Hopen.
  destruct (load_embeddings fs filename) as [df|e] eqn:Hload.
  - left. now exists df.
  - right.
    destruct (MLFairnessSpec.load_embeddings_raises float np_float32 fs filename)
      as [[Hmiss _] Honly].
    destruct (Honly e Hload) as [ -> | -> ]; [|reflexivity].
    apply Hmiss in Hload. unfold open in Hopen. rewrite Hload in Hopen.
    discriminate.
Qed.

(** X4.  A table that [load_embeddings] returns has one label for each row,
    one row for each line that has not exactly two items, at least one row,
    and rows of one length [d]; every such line then has [d + 1] items. *)
Theorem loaded_table_shape (fs : file_system) (filename : str)
  (lines : list str) (df : DataFrame float32) :
  open fs filename = Ok lines ->
  load_embeddings fs filename = Ok df ->
  length (index df) = length (values df)
  /\ length (values df)
     = length (filter (fun l => negb (Nat.eqb (length (split SP (rstrip l))) 2))
                 lines)
  /\ values df <> []
  /\ exists d,
       Forall (fun row => length row = d) (values df)
       /\ Forall (fun l => length (split SP (rstrip l)) = S d) (retained lines).
Proof.
  intros Hopen Hload.
  destruct (load_embeddings_Ok fs filename lines df Hopen Hload)
    as (rs & Hrs & Hne & (d & Hrect) & ->).
  cbn [index values]. apply comprehension_Ok in Hrs.
  split; [now rewrite !length_map|].
  split; [rewrite length_map; symmetry; exact (Forall2_length Hrs)|].
  split; [destruct rs; [congruence|discriminate]|].
  exists d. split; [exact Hrect|].
  clear Hne Hopen Hload. revert Hrect.
  induction Hrs as [|l [label row] ls rs' Hl _ IH]; intros Hrect; constructor.
  - inversion Hrect; subst. cbn [snd].
    exact (parse_row_items l label row Hl).
  - apply IH. now inversion Hrect.
Qed.

(** X5.  A table that [load_embeddings] returns holds, in the order of the
    file, for each line that has not exactly two items: as label the first
    item of the line, and as row the other items as [float] reads them, each
    turned into a [float32].  Nothing is assumed of the file. *)
Theorem loaded_table_contents (fs : file_system) (filename : str)
  (lines : list str) (df : DataFrame float32) :
  open fs filename = Ok lines ->
  load_embeddings fs filename = Ok df ->
  index df = map (fun l => hd [] (split SP (rstrip l))) (retained lines)
  /\ Forall2
       (fun l row =>
          exists xs,
            Forall2 (fun x v => float x = Some v) (tl (split SP (rstrip l))) xs
            /\ row = map np_float32 xs)
       (retained lines) (values df).
Proof.
  intros Hopen Hload.
  destruct (load_embeddings_Ok fs filename lines df Hopen Hload)
    as (rs & Hrs & _ & _ & ->).
  cbn [index values]. apply comprehension_Ok in Hrs.
  clear Hopen Hload.
  induction Hrs as [|l [label row] ls rs' Hl _ [IHi IHv]]; [split; constructor|].
  apply parse_row_Ok in Hl as (-> & xs & Hxs & ->).
  split.
  - cbn [map fst]. now rewrite IHi.
  - cbn [map snd]. constructor; [|exact IHv].
    exists xs. split; [exact Hxs|reflexivity].
Qed.

(** X6.  If some line that has not exactly two items has, after its first
    item, an item that [float] rejects, [load_embeddings] raises
    [ValueError], whatever the other lines hold. *)
Theorem bad_field_raises (fs : file_system) (filename : str)
  (lines : list str) (l x : str) :
  open fs filename = Ok lines ->
  In l lines ->
  length (split SP (rstrip l)) <> 2%nat ->
  In x (tl (split SP (rstrip l))) ->
  float x = None ->
  load_embeddings fs filename = Raise ValueError.
Proof.
  intros Hopen Hl Hkept Hx Hbad.
  rewrite (MLFairnessSpec.load_embeddings_retained float np_float32), Hopen.
  cbn [bind].
  rewrite (comprehension_raises parse_row ValueError (retained lines) l).
  - reflexivity.
  - apply MLFairnessSpec.parse_row_raises_only.
  - apply filter_In. split; [exact Hl|].
    unfold header_row, items_of. now apply negb_true_iff, Nat.eqb_neq.
  - unfold MLFairness.parse_row.
    rewrite (MLFairnessSpec.getitem_items l). cbn [bind].
    replace (skipn 1 (items_of l)) with (tl (items_of l))
      by now destruct (items_of l).
    rewrite (comprehension_raises (float_ float) ValueError (tl (items_of l)) x).
    + reflexivity.
    + intros y e' Hy. unfold float_ in Hy.
      destruct (float y); [discriminate|now inversion Hy].
    + exact Hx.
    + unfold float_. now rewrite Hbad.
Qed.

(** X7.  If two lines that have not exactly two items have different numbers
    of items, [load_embeddings] raises [ValueError]: a blank line beside a
    vector, or two vectors of different dimensions, leave no table. *)
Theorem ragged_rows_raise (fs : file_system) (filename : str)
  (lines : list str) (l1 l2 : str) :
  open fs filename = Ok lines ->
  In l1 lines -> In l2 lines ->
  length (split SP (rstrip l1)) <> 2%nat ->
  length (split SP (rstrip l2)) <> 2%nat ->
  length (split SP (rstrip l1)) <> length (split SP (rstrip l2)) ->
  load_embeddings fs filename = Raise ValueError.
Proof.
  intros Hopen H1 H2 Hk1 Hk2 Hdiff.
  destruct (load_embeddings_Ok_or_ValueError fs filename lines Hopen)
    as [[df Hload]|Hraise]; [exfalso|exact Hraise].
  destruct (load_embeddings_Ok fs filename lines df Hopen Hload)
    as (rs & Hrs & _ & (d & Hrect) & _).
  apply comprehension_Ok in Hrs.
  assert (Hitems : forall l, In l lines ->
            length (split SP (rstrip l)) <> 2%nat ->
            length (split SP (rstrip l)) = S d).
  { intros l Hl Hk.
    assert (Hin : In l (retained lines)).
    { apply filter_In. split; [exact Hl|].
      unfold header_row, items_of. now apply negb_true_iff, Nat.eqb_neq. }
    clear Hl Hk H1 H2 Hopen Hload. revert Hrect Hin.
    induction Hrs as [|l0 [label row] ls rs' Hl0 _ IH]; intros Hrect Hin;
      [contradiction|].
    inversion Hrect; subst. destruct Hin as [->|Hin].
    - exact (parse_row_items l label row Hl0).
    - now apply IH. }
  apply Hdiff. now rewrite (Hitems l1 H1 Hk1), (Hitems l2 H2 Hk2).
Qed.

(** X8.  White space at the end of a line plays no part: two files whose
    lines differ in nothing but the white space they end with load
    alike. *)
Theorem trailing_space_ignored (fs1 fs2 : file_system) (name1 name2 : str)
  (lines1 lines2 : list str) :
  open fs1 name1 = Ok lines1 ->
  open fs2 name2 = Ok lines2 ->
  Forall2 (fun l l' => exists body eol eol',
             blank eol /\ blank eol' /\ l = body ++ eol /\ l' = body ++ eol')
    lines1 lines2 ->
  load_embeddings fs1 name1 = load_embeddings fs2 name2.
Proof.
  intros H1 H2 Hlines.
  rewrite !(MLFairnessSpec.load_embeddings_retained float np_float32), H1, H2.
  cbn [bind].
  replace (comprehension parse_row (retained lines2))
    with (comprehension parse_row (retained lines1)); [reflexivity|].
  clear H1 H2.
  induction Hlines as [|l l' ls ls' Hl _ IH]; [reflexivity|].
  destruct Hl as (body & eol & eol' & He & He' & Hl & Hl'). subst l l'.
  assert (Hitems : forall e, blank e -> items_of (body ++ e) = items_of body).
  { intros e Hblank. unfold items_of. now rewrite rstrip_app_blank. }
  assert (Hrow : forall e, blank e -> parse_row (body ++ e) = parse_row body).
  { intros e Hblank. unfold MLFairness.parse_row. now rewrite Hitems. }
  assert (Hcons : forall l ls, retained (l :: ls)
            = if negb (header_row l) then l :: retained ls else retained ls)
    by reflexivity.
  rewrite !Hcons. unfold header_row. rewrite !Hitems by assumption.
  destruct (negb (Nat.eqb (length (items_of body)) 2)); [|exact IH].
  cbn [comprehension]. now rewrite !Hrow, IH by assumption.
Qed.

End Numbers.

(** X9.  Reading a line gives back what was written: fields with no white
    space in them (the last not empty, unless it is the only one), joined by
    single spaces and followed by any white space, split into exactly those
    fields. *)
Theorem items_round_trip (fields : list str) (eol : str) :
  tidy fields -> blank eol ->
  split SP (rstrip (join SP fields ++ eol)) = fields.
Proof.
  intros Ht He. apply split_rstrip_line; [exact Ht|].
  exists eol. split; [exact He|reflexivity].
Qed.

(** *** Closed instances *)

Lemma loaded_table_shape_witness :
  length (index small_table) = length (values small_table)
  /\ length (values small_table)
     = length (filter (fun l => negb (Nat.eqb (length (split SP (rstrip l))) 2))
                 small_lines)
  /\ values small_table <> []
  /\ exists d,
       Forall (fun row => length row = d) (values small_table)
       /\ Forall (fun l => length (split SP (rstrip l)) = S d)
            (retained small_lines).
Proof.
  apply (loaded_table_shape float_of_digits float32_of_small
           (single_file glove small_vectors) glove small_lines small_table);
    reflexivity.
Defined.

Lemma loaded_table_contents_witness :
  index small_table
  = map (fun l => hd [] (split SP (rstrip l))) (retained small_lines)
  /\ Forall2
       (fun l row =>
          exists xs,
            Forall2 (fun x v => float_of_digits x = Some v)
              (tl (split SP (rstrip l))) xs
            /\ row = map float32_of_small xs)
       (retained small_lines) (values small_table).
Proof.
  apply (loaded_table_contents float_of_digits float32_of_small
           (single_file glove small_vectors) glove small_lines small_table);
    reflexivity.
Defined.

Lemma bad_field_raises_witness :
  load_digits (single_file glove vectors_with_bad_field) glove
  = Raise ValueError.
Proof.
  apply (bad_field_raises float_of_digits float32_of_small
           (single_file glove vectors_with_bad_field) glove
           [line "cat 1 x"] (line "cat 1 x") (text "x")).
  - reflexivity.
  - left. reflexivity.
  - vm_compute. discriminate.
  - right. left. reflexivity.
  - reflexivity.
Defined.

Lemma ragged_rows_raise_witness :
  load_digits (single_file glove vectors_with_blank_line) glove
  = Raise ValueError.
Proof.
  apply (ragged_rows_raise float_of_digits float32_of_small
           (single_file glove vectors_with_blank_line) glove
           [line "cat 1 2"; [LF]] (line "cat 1 2") [LF]).
  - reflexivity.
  - left. reflexivity.
  - right. left. reflexivity.
  - vm_compute. discriminate.
  - vm_compute. discriminate.
  - vm_compute. discriminate.
Defined.

Lemma trailing_space_ignored_witness :
  load_digits (single_file glove small_vectors) glove
  = load_digits (single_file glove small_vectors_spaced) glove.
Proof.
  apply (trailing_space_ignored float_of_digits float32_of_small
           (single_file glove small_vectors) (single_file glove small_vectors_spaced)
           glove glove small_lines
           [text "2 2" ++ [SP; SP; LF]; text "cat 1 2" ++ [SP; LF]; line "dog 3 4"]).
  - reflexivity.
  - reflexivity.
  - apply Forall2_cons;
      [exists (text "2 2"), [LF], [SP; SP; LF]; repeat split; repeat constructor|].
    apply Forall2_cons;
      [exists (text "cat 1 2"), [LF], [SP; LF]; repeat split; repeat constructor|].
    apply Forall2_cons;
      [exists (text "dog 3 4"), [LF], [LF]; repeat split; repeat constructor|].
    apply Forall2_nil.
Defined.

Lemma items_round_trip_witness :
  split SP (rstrip (join SP [text "cat"; text "1"; text "2"] ++ [SP; CR; LF]))
  = [text "cat"; text "1"; text "2"].
Proof.
  apply (items_round_trip [text "cat"; text "1"; text "2"] [SP; CR; LF]).
  - split; [discriminate | split; [repeat constructor | right; discriminate]].
  - repeat constructor.
Defined.

End LoadedTable.

(** ** [run] once more, and the cells around it *)

Module NotebookSpec.

Import CNN Notebook.

#[local] Open Scope Z_scope.

Lemma combine_app_l {A B : Type} (xs extra : list A) (ys : list B) :
  length xs = length ys -> combine (xs ++ extra) ys = combine xs ys.
Proof.
  revert ys. induction xs as [|x xs IH]; intros [|y ys] Hl; try discriminate.
  - now destruct extra.
  - cbn. f_equal. apply IH. now injection Hl.
Qed.

Lemma combine_app_r {A B : Type} (xs : list A) (ys extra : list B) :
  length xs = length ys -> combine xs (ys ++ extra) = combine xs ys.
Proof.
  revert ys. induction xs as [|x xs IH]; intros [|y ys] Hl; try discriminate.
  - reflexivity.
  - cbn. f_equal. apply IH. now injection Hl.
Qed.

(** X10.  [zip] stops at the shorter list without a word: kernel sizes beyond
    the number of filter counts, and filter counts beyond the number of
    kernel sizes, change neither the layers that a call constructs nor the
    model it returns. *)
Theorem zip_ignores_extra_entries (g : namespace) (kw : keywords)
  (nf ks extra : list Z) :
  length ks = length nf ->
  (fst (call_run g (with_lists kw nf (ks ++ extra)))
   = fst (call_run g (with_lists kw nf ks))
   /\ layer_calls (snd (call_run g (with_lists kw nf (ks ++ extra))))
      = layer_calls (snd (call_run g (with_lists kw nf ks))))
  /\ (fst (call_run g (with_lists kw (nf ++ extra) ks))
      = fst (call_run g (with_lists kw nf ks))
      /\ layer_calls (snd (call_run g (with_lists kw (nf ++ extra) ks)))
         = layer_calls (snd (call_run g (with_lists kw nf ks)))).
Proof.
  intros Hlen.
  assert (Hl : zip (ks ++ extra) nf = zip ks nf)
    by (apply combine_app_l; exact Hlen).
  assert (Hr : zip ks (nf ++ extra) = zip ks nf)
    by (apply combine_app_r; exact Hlen).
  rewrite !CNNSpec.layer_calls_call_run, !CNNSpec.call_run_trace.
  unfold layers_to_concatenate, layers_from_dropout, network, pooled, embedded.
  cbn [signature with_lists or_default hp_kernel_sizes hp_num_filters
       hp_embed_dim hp_dense_layer_dims num_filters kernel_sizes embed_dim
       dense_layer_dims].
  rewrite Hl, Hr.
  destruct (dropout_rate g); cbn [fst]; repeat split; reflexivity.
Qed.

Lemma zip_ignores_extra_entries_witness :
  (fst (call_run (sst_namespace (Some 0.4%float))
          (with_lists model1 [2; 2] ([3; 4] ++ [5; 6])))
   = fst (call_run (sst_namespace (Some 0.4%float)) (with_lists model1 [2; 2] [3; 4]))
   /\ layer_calls (snd (call_run (sst_namespace (Some 0.4%float))
                          (with_lists model1 [2; 2] ([3; 4] ++ [5; 6]))))
      = layer_calls (snd (call_run (sst_namespace (Some 0.4%float))
                            (with_lists model1 [2; 2] [3; 4]))))
  /\ (fst (call_run (sst_namespace (Some 0.4%float))
             (with_lists model1 ([2; 2] ++ [5; 6]) [3; 4]))
      = fst (call_run (sst_namespace (Some 0.4%float))
               (with_lists model1 [2; 2] [3; 4]))
      /\ layer_calls (snd (call_run (sst_namespace (Some 0.4%float))
                             (with_lists model1 ([2; 2] ++ [5; 6]) [3; 4])))
         = layer_calls (snd (call_run (sst_namespace (Some 0.4%float))
                               (with_lists model1 [2; 2] [3; 4])))).
Proof.
  apply (zip_ignores_extra_entries (sst_namespace (Some 0.4%float)) model1
           [2; 2] [3; 4] [5; 6]).
  reflexivity.
Defined.


(** *** The cells *)

Lemma on_their_data_nil (k : kernel) : on_their_data k [].
Proof. split; intros; contradiction. Qed.

Lemma on_their_data_app (k k1 : kernel) (tr1 tr2 : list action) :
  data k1 = data k -> on_their_data k tr1 -> on_their_data k1 tr2 ->
  on_their_data k (tr1 ++ tr2).
Proof.
  intros Hd [Hf1 He1] [Hf2 He2]. unfold data in Hd.
  injection Hd as Hg Hdx Hdy Htx Hty.
  split.
  - intros m x y e Hin. apply in_app_or in Hin as [Hin|Hin].
    + now apply (Hf1 m x y e).
    + rewrite <- Hg. now apply (Hf2 m x y e).
  - intros m x y Hin. apply in_app_or in Hin as [Hin|Hin].
    + now apply (He1 m x y).
    + rewrite <- Hdx, <- Hdy, <- Htx, <- Hty. now apply (He2 m x y).
Qed.

(** [run] fits on the training arrays of the namespace. *)
Lemma run_fits_on_training_data (g : namespace) (kw : keywords)
  (m : Model) (x : list (list Z)) (y : list Z) (e : Z) :
  In (fit m x y e) (snd (call_run g kw)) -> x = train_x g /\ y = train_y g.
Proof.
  rewrite CNNSpec.call_run_trace.
  destruct (dropout_rate g) as [rate|]; cbn [snd]; intros Hin.
  - apply in_app_or in Hin as [Hin|Hin].
    + apply in_map_iff in Hin as (l & Hl & _). discriminate.
    + cbn in Hin. destruct Hin as [H|[H|[H|[H|[]]]]]; try discriminate.
      now inversion H.
  - apply in_map_iff in Hin as (l & Hl & _). discriminate.
Qed.

Lemma keeps_assign_run (n : nat) (kw : keywords) : keeps (assign_run n kw).
Proof.
  intros k r k' tr H. unfold assign_run in H.
  pose proof (run_fits_on_training_data (globals k) kw) as Hfit.
  destruct (call_run (globals k) kw) as [[m|e] tr0]; cbn [snd] in Hfit;
    inversion H; subst; (split; [reflexivity|]); split.
  - intros m0 x y e Hin. apply in_map_iff in Hin as (ev & Hev & Hin).
    inversion Hev; subst. now apply (Hfit m0 x y e).
  - intros m0 x y Hin. apply in_map_iff in Hin as (ev & Hev & _). discriminate.
  - intros m0 x y e0 Hin. apply in_map_iff in Hin as (ev & Hev & Hin).
    inversion Hev; subst. now apply (Hfit m0 x y e0).
  - intros m0 x y Hin. apply in_map_iff in Hin as (ev & Hev & _). discriminate.
Qed.

Lemma keeps_evaluate_dev (n : nat) : keeps (evaluate_dev n).
Proof.
  intros k r k' tr H. unfold evaluate_dev in H.
  destruct (lookup_tuned n k); inversion H; subst;
    (split; [reflexivity|]); [|apply on_their_data_nil].
  split.
  - intros m0 x y e [Hin|[]]. discriminate.
  - intros m0 x y [Hin|[]]. inversion Hin; subst. left. now split.
Qed.

Lemma keeps_evaluate_test (n : nat) : keeps (evaluate_test n).
Proof.
  intros k r k' tr H. unfold evaluate_test in H.
  destruct (lookup_tuned n k); inversion H; subst;
    (split; [reflexivity|]); [|apply on_their_data_nil].
  split.
  - intros m0 x y e [Hin|[]]. discriminate.
  - intros m0 x y [Hin|[]]. inversion Hin; subst. right. now split.
Qed.

Lemma keeps_fit_cell : keeps fit_cell.
Proof.
  intros k r k' tr H. unfold fit_cell in H.
  destruct (name_model k) as [m|]; [destruct (name_epochs k) as [e|]|];
    inversion H; subst; (split; [reflexivity|]);
    try apply on_their_data_nil; split.
  - intros m0 x y e0 [Hin|[Hin|[]]]; [discriminate|].
    inversion Hin; subst. now split.
  - intros m0 x y [Hin|[Hin|[]]]; discriminate.
  - intros m0 x y e0 [Hin|[]]. discriminate.
  - intros m0 x y [Hin|[]]. discriminate.
Qed.

Lemma keeps_evaluate_cell : keeps evaluate_cell.
Proof.
  intros k r k' tr H. unfold evaluate_cell in H.
  destruct (name_model k); inversion H; subst;
    (split; [reflexivity|]); [|apply on_their_data_nil].
  split.
  - intros m0 x y e [Hin|[]]. discriminate.
  - intros m0 x y [Hin|[]]. inversion Hin; subst. left. now split.
Qed.

Lemma keeps_and_then (s1 s2 : step) : keeps s1 -> keeps s2 -> keeps (and_then s1 s2).
Proof.
  intros H1 H2 k r k' tr H. unfold and_then in H.
  destruct (s1 k) as [[[u|e] k1] tr1] eqn:E1.
  - destruct (s2 k1) as [[r2 k2] tr2] eqn:E2. inversion H; subst.
    destruct (H1 _ _ _ _ E1) as [Hd1 Ho1].
    destruct (H2 _ _ _ _ E2) as [Hd2 Ho2].
    split; [now rewrite Hd2|].
    now apply (on_their_data_app k k1).
  - inversion H; subst. exact (H1 _ _ _ _ E1).
Qed.

Lemma keeps_cells : Forall keeps cells.
Proof.
  unfold cells, tuning_section, test_cell.
  repeat (constructor;
          [first [ apply keeps_fit_cell | apply keeps_evaluate_cell
                 | apply keeps_assign_run | apply keeps_evaluate_dev
                 | repeat apply keeps_and_then; apply keeps_evaluate_test ]|]).
  constructor.
Qed.

(** X12.  In whatever order the cells after the definition of [run] are run,
    and however often, from whatever kernel: they leave the dataset, the
    training, development and test arrays and [dropout_rate] as they were;
    every [fit] is on the training arrays; every [evaluate] is on the
    development arrays or on the test arrays. *)
Theorem cells_keep_to_their_data (cs : list step) (k k' : kernel)
  (rs : list (result unit)) (tr : list action) :
  Forall (fun c => In c cells) cs ->
  run_cells cs k = (rs, k', tr) ->
  globals k' = globals k
  /\ (dev_x k', dev_y k', test_x k', test_y k')
     = (dev_x k, dev_y k, test_x k, test_y k)
  /\ (forall m x y e, In (did (fit m x y e)) tr ->
        x = train_x (globals k) /\ y = train_y (globals k))
  /\ (forall m x y, In (evaluate m x y) tr ->
        (x = dev_x k /\ y = dev_y k) \/ (x = test_x k /\ y = test_y k)).
Proof.
  intros Hcs Hrun.
  assert (H : data k' = data k /\ on_their_data k tr).
  { revert k k' rs tr Hrun.
    induction Hcs as [|c cs' Hc _ IH]; intros k k' rs tr Hrun; cbn in Hrun.
    - inversion Hrun; subst. split; [reflexivity|apply on_their_data_nil].
    - destruct (c k) as [[r k1] tr1] eqn:Ec.
      destruct (run_cells cs' k1) as [[rs' k2] tr2] eqn:Er.
      inversion Hrun; subst.
      pose proof keeps_cells as Hall. rewrite Forall_forall in Hall.
      destruct (Hall c Hc _ _ _ _ Ec) as [Hd1 Ho1].
      destruct (IH _ _ _ _ Er) as [Hd2 Ho2].
      split; [now rewrite Hd2|].
      now apply (on_their_data_app k k1). }
  destruct H as [Hd [Hf He]]. unfold data in Hd.
  injection Hd as Hg Hdx Hdy Htx Hty.
  split; [exact Hg|]. split; [now rewrite Hdx, Hdy, Htx, Hty|].
  split; [exact Hf|exact He].
Qed.

Ltac in_cells i :=
  apply (nth_error_In cells i); reflexivity.

Lemma cells_keep_to_their_data_witness :
  let k := sst_kernel (Some 0.8%float) in
  let out := run_cells [evaluate_dev 5; assign_run 5 model5; fit_cell;
                        evaluate_dev 5; test_cell] k in
  globals (snd (fst out)) = globals k
  /\ (dev_x (snd (fst out)), dev_y (snd (fst out)),
      test_x (snd (fst out)), test_y (snd (fst out)))
     = (dev_x k, dev_y k, test_x k, test_y k)
  /\ (forall m x y e, In (did (fit m x y e)) (snd out) ->
        x = train_x (globals k) /\ y = train_y (globals k))
  /\ (forall m x y, In (evaluate m x y) (snd out) ->
        (x = dev_x k /\ y = dev_y k) \/ (x = test_x k /\ y = test_y k)).
Proof.
  intros k out.
  apply (cells_keep_to_their_data
           [evaluate_dev 5; assign_run 5 model5; fit_cell; evaluate_dev 5; test_cell]
           k (snd (fst out)) (fst (fst out)) (snd out)).
  - apply Forall_cons; [in_cells 11%nat|].
    apply Forall_cons; [in_cells 10%nat|].
    apply Forall_cons; [in_cells 0%nat|].
    apply Forall_cons; [in_cells 11%nat|].
    apply Forall_cons; [in_cells 18%nat|].
    apply Forall_nil.
  - vm_compute. reflexivity.
Defined.

End NotebookSpec.

(** ** [run] and the tuning cells when Keras checks what it is given *)

Module CheckedSpec.

Import CNN Notebook Checked.

#[local] Open Scope Z_scope.
#[local] Open Scope keras_scope.

Section Keras.

Variable refuses : request -> option exception.

#[local] Abbreviation keras := (keras refuses).
#[local] Abbreviation keras_layers := (keras_layers refuses).
#[local] Abbreviation perform := (perform refuses).
#[local] Abbreviation call_run := (call_run refuses).

Lemma keras_bind {B : Type} (r : request) (done : list event)
  (k : unit -> M B) (tr : list event) :
  bindM (keras r done) k tr
  = match refuses r with
    | Some e => (Raise e, tr)
    | None => k tt (tr ++ done)
    end.
Proof. unfold bindM, Checked.keras. now destruct (refuses r). Qed.

Lemma checked_layers_bind {B : Type} (l : layer) (xs : list tensor)
  (k : tensor -> M B) (tr : list event) :
  bindM (keras_layers l xs) k tr
  = match refuses (ask_layer l xs) with
    | Some e => (Raise e, tr)
    | None => k (output_of l xs) (tr ++ [layer_call l])
    end.
Proof.
  unfold Checked.keras_layers, bindM, Checked.keras.
  now destruct (refuses (ask_layer l xs)).
Qed.

Lemma bindM_assoc {A B C : Type} (c : M A) (f : A -> M B) (k : B -> M C)
  (tr : list event) :
  bindM (bindM c f) k tr = bindM c (fun a => bindM (f a) k) tr.
Proof. unfold bindM. now destruct (c tr) as [[a|e] tr']. Qed.

Lemma ret_bind {A B : Type} (a : A) (k : A -> M B) (tr : list event) :
  bindM (ret a) k tr = k a tr.
Proof. reflexivity. Qed.

Lemma perform_app (asks1 asks2 : list (request * list event)) (tr : list event) :
  perform (asks1 ++ asks2) tr
  = match perform asks1 tr with
    | (Some e, tr') => (Some e, tr')
    | (None, tr') => perform asks2 tr'
    end.
Proof.
  revert tr. induction asks1 as [|[r done] asks1 IH]; intros tr; [reflexivity|].
  cbn [app Checked.perform]. destruct (refuses r); [reflexivity|apply IH].
Qed.

Lemma and_on_app {B : Type} (asks1 asks2 : list (request * list event))
  (tr : list event) (k : list event -> result B * list event) :
  and_on (perform (asks1 ++ asks2) tr) k
  = and_on (perform asks1 tr) (fun tr' => and_on (perform asks2 tr') k).
Proof.
  rewrite perform_app. unfold and_on.
  now destruct (perform asks1 tr) as [[e|] tr'].
Qed.

Lemma and_on_layer {B : Type} (l : layer) (xs : list tensor)
  (rest : list (request * list event)) (tr : list event)
  (k : list event -> result B * list event) :
  and_on (perform (layer_ask l xs :: rest) tr) k
  = match refuses (ask_layer l xs) with
    | Some e => (Raise e, tr)
    | None => and_on (perform rest (tr ++ [layer_call l])) k
    end.
Proof.
  unfold layer_ask. cbn [Checked.perform].
  now destruct (refuses (ask_layer l xs)).
Qed.

(** The loop over the zipped pairs. *)
Lemma checked_conv_loop {B : Type} (h : tensor) (pairs : list (Z * Z))
  (k : list tensor -> M B) :
  forall (acc : list tensor) (tr : list event),
    bindM
      (for_in pairs acc
         (fun '(filters, kernel_size) conv_layers_for_all_kernel_sizes =>
            conv_layer <- keras_layers (Conv1D filters kernel_size relu) [h] ;;
            conv_layer <- keras_layers GlobalMaxPooling1D [conv_layer] ;;
            ret (conv_layers_for_all_kernel_sizes ++ [conv_layer])))
      k tr
    = and_on (perform (conv_pool_asks h pairs) tr)
        (k (acc ++ map (conv_pool h) pairs)).
Proof.
  induction pairs as [|[f ks] ps IH]; intros acc tr.
  - cbn. now rewrite app_nil_r.
  - cbn [for_in conv_pool_asks flat_map app fst snd].
    change (flat_map _ ps) with (conv_pool_asks h ps).
    rewrite !and_on_layer.
    rewrite !bindM_assoc, checked_layers_bind.
    destruct (refuses (ask_layer (Conv1D f ks relu) [h])); [reflexivity|].
    rewrite !bindM_assoc, checked_layers_bind.
    destruct (refuses (ask_layer GlobalMaxPooling1D _)); [reflexivity|].
    rewrite ret_bind, IH. cbn [map]. rewrite <- (app_assoc acc). reflexivity.
Qed.

(** The loop over the dense dimensions. *)
Lemma checked_dense_loop {B : Type} (dims : list Z) (k : tensor -> M B) :
  forall (h : tensor) (tr : list event),
    bindM (for_in dims h (fun dim h => keras_layers (Dense dim relu) [h])) k tr
    = and_on (perform (dense_asks dims h) tr) (k (dense_stack dims h)).
Proof.
  induction dims as [|d ds IH]; intros h tr; [reflexivity|].
  cbn [for_in dense_asks dense_stack fold_left].
  rewrite and_on_layer, bindM_assoc, checked_layers_bind.
  destruct (refuses (ask_layer (Dense d relu) [h])); [reflexivity|].
  apply IH.
Qed.

Lemma and_on_ask {B : Type} (r : request) (done : list event)
  (rest : list (request * list event)) (tr : list event)
  (k : list event -> result B * list event) :
  and_on (perform ((r, done) :: rest) tr) k
  = match refuses r with
    | Some e => (Raise e, tr)
    | None => and_on (perform rest (tr ++ done)) k
    end.
Proof. cbn [Checked.perform]. now destruct (refuses r). Qed.

Lemma and_on_ext {B : Type} (first : option exception * list event)
  (k1 k2 : list event -> result B * list event) :
  (forall tr, k1 tr = k2 tr) -> and_on first k1 = and_on first k2.
Proof. intros H. destruct first as [[e|] tr]; [reflexivity|apply H]. Qed.

(** A call of [run] in three parts: the requests up to the concatenation,
    the reading of [dropout_rate], the requests up to [compile], the
    [print], and the two requests after it. *)
Lemma call_run_parts (g : namespace) (kw : keywords) :
  call_run g kw
  = and_on (perform (asks_to_concatenate g (signature kw)) [])
      (fun tr1 =>
         match dropout_rate g with
         | None => (Raise NameError, tr1)
         | Some rate =>
             and_on (perform (asks_to_compile g (signature kw) rate) tr1)
               (fun tr2 =>
                  and_on (perform (asks_after_print g (signature kw) rate)
                            (tr2 ++ [print (configuration (signature kw))]))
                    (fun tr3 => (Ok (network g (signature kw) rate), tr3)))
         end).
Proof.
  unfold Checked.call_run, Checked.run, Checked.run_body.
  unfold asks_to_concatenate. cbn [app].
  rewrite and_on_layer, checked_layers_bind.
  destruct (refuses (ask_layer (Input (max_len g)) [])); [reflexivity|].
  rewrite and_on_layer, checked_layers_bind. unfold wordids.
  destruct (refuses (ask_layer (Embedding _ _ _) _)); [reflexivity|].
  rewrite checked_conv_loop, and_on_app. apply and_on_ext. intros tr1.
  cbn [app]. rewrite and_on_layer, checked_layers_bind.
  unfold embedded, wordids.
  destruct (refuses (ask_layer (concatenate 1) _)); [reflexivity|].
  cbn [Checked.perform and_on].
  unfold bindM at 1.
  destruct (dropout_rate g) as [rate|]; cbn [global]; [|reflexivity].
  unfold ret at 1. unfold asks_to_compile. cbn [app].
  rewrite and_on_layer, checked_layers_bind. unfold pooled, embedded, wordids.
  destruct (refuses (ask_layer (Dropout rate) _)); [reflexivity|].
  rewrite checked_dense_loop, and_on_app. apply and_on_ext. intros tr2.
  rewrite and_on_layer, checked_layers_bind.
  destruct (refuses (ask_layer (Dense _ softmax) _)); [reflexivity|].
  rewrite and_on_ask, keras_bind. unfold network, pooled, embedded, wordids, num_classes.
  cbn [inputs outputs].
  destruct (refuses (ask_Model _ _)); [reflexivity|].
  rewrite and_on_ask, keras_bind.
  destruct (refuses (ask_compile _ _ _ _)); [reflexivity|].
  cbn [Checked.perform and_on]. rewrite CNNSpec.emit_bind.
  unfold asks_after_print.
  rewrite and_on_ask, keras_bind. unfold network, pooled, embedded, wordids, num_classes.
  destruct (refuses (ask_reset_states _)); [reflexivity|].
  rewrite and_on_ask, keras_bind.
  destruct (refuses (ask_fit _ _ _ _)); [reflexivity|].
  reflexivity.
Qed.

(** *** What [perform] comes to *)

Lemma perform_accepted (asks : list (request * list event)) :
  forall tr,
    Forall (fun a => refuses (fst a) = None) asks ->
    perform asks tr = (None, tr ++ concat (map snd asks)).
Proof.
  induction asks as [|[r done] asks IH]; intros tr Hall.
  - cbn. now rewrite app_nil_r.
  - inversion Hall as [|? ? Hr Hrest]; subst. cbn [fst] in Hr.
    cbn [Checked.perform map concat snd]. rewrite Hr, (IH _ Hrest).
    now rewrite <- app_assoc.
Qed.

Lemma perform_None (asks : list (request * list event)) :
  forall tr tr',
    perform asks tr = (None, tr') ->
    tr' = tr ++ concat (map snd asks)
    /\ Forall (fun a => refuses (fst a) = None) asks.
Proof.
  induction asks as [|[r done] asks IH]; intros tr tr' H.
  - cbn in H. inversion H; subst. rewrite app_nil_r. split; constructor.
  - cbn [Checked.perform] in H. destruct (refuses r) eqn:Hr; [discriminate|].
    apply IH in H as [-> Hall]. cbn [map concat snd].
    rewrite <- app_assoc. split; [reflexivity|]. now constructor.
Qed.

Lemma perform_Some (asks : list (request * list event)) :
  forall tr tr' e,
    perform asks tr = (Some e, tr') ->
    (exists r, In r (map fst asks) /\ refuses r = Some e)
    /\ exists rest, tr ++ concat (map snd asks) = tr' ++ rest.
Proof.
  induction asks as [|[r done] asks IH]; intros tr tr' e H.
  - discriminate.
  - cbn [Checked.perform] in H. destruct (refuses r) eqn:Hr.
    + inversion H; subst. split.
      * exists r. split; [now left|exact Hr].
      * eexists. reflexivity.
    + apply IH in H as [(r' & Hin & Hr') (rest & Hrest)]. split.
      * exists r'. split; [now right|exact Hr'].
      * exists rest. cbn [map concat snd]. now rewrite app_assoc.
Qed.

End Keras.

(** The events of the three parts. *)
Lemma events_conv_pool_asks (h : tensor) (pairs : list (Z * Z)) :
  concat (map snd (conv_pool_asks h pairs))
  = map layer_call (conv_pool_layers pairs).
Proof.
  unfold conv_pool_asks, conv_pool_layers.
  induction pairs as [|p ps IH]; [reflexivity|].
  cbn [flat_map]. rewrite !map_app, concat_app, IH. reflexivity.
Qed.

Lemma events_dense_asks (dims : list Z) :
  forall h, concat (map snd (dense_asks dims h))
            = map layer_call (map (fun dim => Dense dim relu) dims).
Proof.
  induction dims as [|d ds IH]; intros h; [reflexivity|].
  cbn. now rewrite IH.
Qed.

Lemma events_to_concatenate (g : namespace) (hp : hyperparameters) :
  concat (map snd (asks_to_concatenate g hp))
  = map layer_call (layers_to_concatenate g hp).
Proof.
  unfold asks_to_concatenate, layers_to_concatenate.
  rewrite !map_app, !concat_app, events_conv_pool_asks. reflexivity.
Qed.

Lemma events_to_compile (g : namespace) (hp : hyperparameters) (rate : float) :
  concat (map snd (asks_to_compile g hp rate))
  = map layer_call (layers_from_dropout g hp rate)
    ++ [compile (network g hp rate) "adam" "sparse_categorical_crossentropy"
          ["accuracy"%string]].
Proof.
  unfold asks_to_compile, layers_from_dropout.
  rewrite !map_app, !concat_app, events_dense_asks. cbn [map concat snd app].
  rewrite <- !app_assoc. reflexivity.
Qed.

Lemma whole_trace_parts (g : namespace) (hp : hyperparameters) (rate : float) :
  whole_trace g hp rate
  = ((map layer_call (layers_to_concatenate g hp)
      ++ (map layer_call (layers_from_dropout g hp rate)
          ++ [compile (network g hp rate) "adam" "sparse_categorical_crossentropy"
                ["accuracy"%string]]))
     ++ [print (configuration hp)])
    ++ [reset_states (network g hp rate);
        fit (network g hp rate) (train_x g) (train_y g) (hp_epochs hp)].
Proof.
  unfold whole_trace. rewrite map_app, <- !app_assoc. reflexivity.
Qed.

Section Calls.

Variable refuses : request -> option exception.

#[local] Abbreviation perform := (perform refuses).
#[local] Abbreviation call_run := (call_run refuses).

(** A call that returns has gone through all of its requests. *)
Lemma call_run_Ok (g : namespace) (kw : keywords) (m : Model) (tr : list event) :
  call_run g kw = (Ok m, tr) ->
  exists rate,
    dropout_rate g = Some rate
    /\ m = network g (signature kw) rate
    /\ tr = whole_trace g (signature kw) rate
    /\ Forall (fun r => refuses r = None) (requests g (signature kw) rate).
Proof.
  rewrite call_run_parts. unfold and_on.
  destruct (perform (asks_to_concatenate g (signature kw)) [])
    as [[e|] tr1] eqn:H1; [discriminate|].
  destruct (dropout_rate g) as [rate|]; [|discriminate].
  destruct (perform (asks_to_compile g (signature kw) rate) tr1)
    as [[e|] tr2] eqn:H2; [discriminate|].
  destruct (perform (asks_after_print g (signature kw) rate) _)
    as [[e|] tr3] eqn:H3; [discriminate|].
  intros H. inversion H; subst. exists rate.
  apply perform_None in H1 as [-> A1]. apply perform_None in H2 as [-> A2].
  apply perform_None in H3 as [-> A3].
  split; [reflexivity|]. split; [reflexivity|]. split.
  - rewrite whole_trace_parts, events_to_concatenate, events_to_compile.
    reflexivity.
  - unfold requests. apply Forall_map. rewrite !Forall_app. now repeat split.
Qed.

(** A call whose requests Keras accepts, with [dropout_rate] bound,
    returns. *)
Lemma call_run_accepted (g : namespace) (kw : keywords) (rate : float) :
  dropout_rate g = Some rate ->
  Forall (fun r => refuses r = None) (requests g (signature kw) rate) ->
  call_run g kw
  = (Ok (network g (signature kw) rate), whole_trace g (signature kw) rate).
Proof.
  intros Hg Hall. unfold requests in Hall.
  rewrite Forall_map, !Forall_app in Hall. destruct Hall as (A1 & A2 & A3).
  rewrite call_run_parts, Hg.
  rewrite (perform_accepted refuses _ _ A1). cbn [and_on].
  rewrite (perform_accepted refuses _ _ A2). cbn [and_on].
  rewrite (perform_accepted refuses _ _ A3). cbn [and_on].
  rewrite whole_trace_parts, events_to_concatenate, events_to_compile.
  reflexivity.
Qed.

(** A call that raises: the name is not bound, or Keras has refused one of
    the requests. *)
Lemma call_run_Raise (g : namespace) (kw : keywords) (e : exception)
  (tr : list event) :
  call_run g kw = (Raise e, tr) ->
  (e = NameError /\ dropout_rate g = None
   /\ tr = map layer_call (layers_to_concatenate g (signature kw)))
  \/ (exists r, refuses r = Some e
       /\ (In r (map fst (asks_to_concatenate g (signature kw)))
           \/ exists rate, dropout_rate g = Some rate
                /\ In r (requests g (signature kw) rate))).
Proof.
  rewrite call_run_parts. unfold and_on.
  destruct (perform (asks_to_concatenate g (signature kw)) [])
    as [[e1|] tr1] eqn:H1.
  { intros [= <- <-]. right.
    apply perform_Some in H1 as [(r & Hin & Hr) _].
    exists r. split; [exact Hr|now left]. }
  apply perform_None in H1 as [-> _].
  destruct (dropout_rate g) as [rate|].
  2:{ intros [= <- <-]. left.
      rewrite <- events_to_concatenate. now repeat split. }
  destruct (perform (asks_to_compile g (signature kw) rate) _)
    as [[e2|] tr2] eqn:H2.
  { intros [= <- <-]. right.
    apply perform_Some in H2 as [(r & Hin & Hr) _].
    exists r. split; [exact Hr|]. right. exists rate. split; [reflexivity|].
    unfold requests. rewrite !map_app, !in_app_iff. now right; left. }
  destruct (perform (asks_after_print g (signature kw) rate) _)
    as [[e3|] tr3] eqn:H3; [|discriminate].
  intros [= <- <-]. right.
  apply perform_Some in H3 as [(r & Hin & Hr) _].
  exists r. split; [exact Hr|]. right. exists rate. split; [reflexivity|].
  unfold requests. rewrite !map_app, !in_app_iff. now right; right.
Qed.

Lemma not_print_layer_calls (d : dict) (ls : list layer) :
  ~ In (print d) (map layer_call ls).
Proof. intros H. apply in_map_iff in H as (l & Hl & _). discriminate. Qed.

Lemma not_fit_layer_calls (m : Model) (x : list (list Z)) (y : list Z) (ep : Z)
  (ls : list layer) :
  ~ In (fit m x y ep) (map layer_call ls).
Proof. intros H. apply in_map_iff in H as (l & Hl & _). discriminate. Qed.

(** Where a call that raises has stopped: among the layers up to the
    concatenation; or, [dropout_rate] being bound, from the dropout to
    [compile], or after [print], at [reset_states] or at [fit]. *)
Lemma call_run_raised (g : namespace) (kw : keywords) (e : exception)
  (tr : list event) :
  call_run g kw = (Raise e, tr) ->
  (exists rest,
      tr ++ rest = map layer_call (layers_to_concatenate g (signature kw)))
  \/ exists rate,
       dropout_rate g = Some rate
       /\ ((exists rest,
               tr ++ rest
               = map layer_call (layers_to_concatenate g (signature kw)
                                 ++ layers_from_dropout g (signature kw) rate)
                 ++ [compile (network g (signature kw) rate) "adam"
                       "sparse_categorical_crossentropy" ["accuracy"%string]])
           \/ (exists after,
                  tr = (map layer_call (layers_to_concatenate g (signature kw)
                                        ++ layers_from_dropout g (signature kw) rate)
                        ++ [compile (network g (signature kw) rate) "adam"
                              "sparse_categorical_crossentropy"
                              ["accuracy"%string];
                            print (configuration (signature kw))])
                       ++ after
                  /\ (after = []
                      \/ after = [reset_states (network g (signature kw) rate)]))).
Proof.
  rewrite call_run_parts. unfold and_on.
  destruct (perform (asks_to_concatenate g (signature kw)) [])
    as [[e1|] tr1] eqn:H1.
  { intros [= _ <-]. left.
    apply perform_Some in H1 as [_ (rest & Hrest)]. exists rest.
    rewrite <- Hrest. cbn [app]. now rewrite events_to_concatenate. }
  apply perform_None in H1 as [Htr1 _]. cbn [app] in Htr1.
  rewrite events_to_concatenate in Htr1.
  destruct (dropout_rate g) as [rate|].
  2:{ intros [= _ <-]. left. exists []. rewrite app_nil_r. exact Htr1. }
  destruct (perform (asks_to_compile g (signature kw) rate) tr1)
    as [[e2|] tr2] eqn:H2.
  { intros [= _ <-]. right. exists rate. split; [reflexivity|]. left.
    apply perform_Some in H2 as [_ (rest & Hrest)]. exists rest.
    rewrite <- Hrest, Htr1, events_to_compile, map_app, <- !app_assoc.
    reflexivity. }
  apply perform_None in H2 as [Htr2 _].
  rewrite events_to_compile, Htr1 in Htr2.
  unfold asks_after_print. cbn [Checked.perform].
  destruct (refuses (ask_reset_states _)) eqn:R1.
  { intros [= _ <-]. right. exists rate. split; [reflexivity|]. right.
    exists []. split; [|now left].
    rewrite app_nil_r, Htr2, map_app, <- !app_assoc. reflexivity. }
  destruct (refuses (ask_fit _ _ _ _)) eqn:R2; [|discriminate].
  intros [= _ <-]. right. exists rate. split; [reflexivity|]. right.
  exists [reset_states (network g (signature kw) rate)]. split; [|now right].
  rewrite Htr2, map_app, <- !app_assoc. reflexivity.
Qed.

(** A call that has fitted has returned. *)
Lemma call_run_fit (g : namespace) (kw : keywords) (r : result Model)
  (tr : list event) (m : Model) (x : list (list Z)) (y : list Z) (ep : Z) :
  call_run g kw = (r, tr) ->
  In (fit m x y ep) tr ->
  exists rate,
    dropout_rate g = Some rate
    /\ r = Ok (network g (signature kw) rate)
    /\ tr = whole_trace g (signature kw) rate.
Proof.
  intros H Hin. destruct r as [m'|e].
  - apply call_run_Ok in H as (rate & Hg & -> & -> & _). now exists rate.
  - exfalso.
    apply call_run_raised
      in H as [(rest & Hrest)|(rate & Hg & [(rest & Hrest)|(after & -> & Hafter)])].
    + apply (not_fit_layer_calls m x y ep (layers_to_concatenate g (signature kw))).
      rewrite <- Hrest. apply in_or_app. now left.
    + assert (Hin' : In (fit m x y ep) (tr ++ rest))
        by (apply in_or_app; now left).
      rewrite Hrest in Hin'. apply in_app_or in Hin' as [Hin'|[Hin'|[]]].
      * now apply not_fit_layer_calls in Hin'.
      * discriminate.
    + apply in_app_or in Hin as [Hin|Hin].
      * apply in_app_or in Hin as [Hin|[Hin|[Hin|[]]]];
          [now apply not_fit_layer_calls in Hin|discriminate|discriminate].
      * destruct Hafter as [-> | ->]; [contradiction|].
        destruct Hin as [Hin|[]]; discriminate.
Qed.

(** A call that has printed has built and compiled the model. *)
Lemma call_run_print (g : namespace) (kw : keywords) (r : result Model)
  (tr : list event) (d : dict) :
  call_run g kw = (r, tr) ->
  In (print d) tr ->
  d = configuration (signature kw)
  /\ exists rate after rest,
       dropout_rate g = Some rate
       /\ tr = (map layer_call (layers_to_concatenate g (signature kw)
                                ++ layers_from_dropout g (signature kw) rate)
                ++ [compile (network g (signature kw) rate) "adam"
                      "sparse_categorical_crossentropy" ["accuracy"%string];
                    print d])
               ++ after
       /\ after ++ rest
          = [reset_states (network g (signature kw) rate);
             fit (network g (signature kw) rate) (train_x g) (train_y g)
               (hp_epochs (signature kw))].
Proof.
  intros H Hin. destruct r as [m'|e].
  - apply call_run_Ok in H as (rate & Hg & -> & -> & _).
    assert (Hd : d = configuration (signature kw)).
    { unfold whole_trace in Hin. apply in_app_or in Hin as [Hin|Hin].
      - now apply not_print_layer_calls in Hin.
      - destruct Hin as [Hin|[Hin|[Hin|[Hin|[]]]]]; try discriminate.
        now injection Hin. }
    split; [exact Hd|]. subst d.
    exists rate, [reset_states (network g (signature kw) rate);
                  fit (network g (signature kw) rate) (train_x g) (train_y g)
                    (hp_epochs (signature kw))], [].
    split; [exact Hg|]. split; [|reflexivity].
    unfold whole_trace. rewrite <- !app_assoc. reflexivity.
  - apply call_run_raised
      in H as [(rest & Hrest)|(rate & Hg & [(rest & Hrest)|(after & -> & Hafter)])].
    + exfalso.
      apply (not_print_layer_calls d (layers_to_concatenate g (signature kw))).
      rewrite <- Hrest. apply in_or_app. now left.
    + exfalso.
      assert (Hin' : In (print d) (tr ++ rest)) by (apply in_or_app; now left).
      rewrite Hrest in Hin'. apply in_app_or in Hin' as [Hin'|[Hin'|[]]].
      * now apply not_print_layer_calls in Hin'.
      * discriminate.
    + assert (Hd : d = configuration (signature kw)).
      { apply in_app_or in Hin as [Hin|Hin].
        - apply in_app_or in Hin as [Hin|[Hin|[Hin|[]]]].
          + now apply not_print_layer_calls in Hin.
          + discriminate.
          + now injection Hin.
        - destruct Hafter as [-> | ->]; [contradiction|].
          destruct Hin as [Hin|[]]; discriminate. }
      split; [exact Hd|]. subst d. exists rate, after.
      destruct Hafter as [-> | ->].
      * eexists. split; [exact Hg|]. split; reflexivity.
      * eexists. split; [exact Hg|]. split; reflexivity.
Qed.


(** X2.  Whatever becomes of a call of [run]: it does not fit without having
    printed; and when it prints, it prints the dictionary of [epochs],
    [embed_dim], [num_filters], [kernel_sizes], [dense_layer_dims] and
    [dropout], with the declared defaults for the arguments not given; all
    the layers have then been constructed and the model compiled, the print
    comes next, and after it come only [reset_states] and then [fit]. *)
Theorem run_prints_before_fit (g : namespace) (kw : keywords)
  (r : result Model) (tr : list event) :
  call_run g kw = (r, tr) ->
  (forall m x y ep,
      In (fit m x y ep) tr -> In (print (configuration (signature kw))) tr)
  /\ (forall d,
        In (print d) tr ->
        d = [("epochs", Int (or_default (epochs kw) 10));
             ("embed_dim", Int (or_default (embed_dim kw) 5));
             ("num_filters", Ints (or_default (num_filters kw) [2; 2; 2]));
             ("kernel_sizes", Ints (or_default (kernel_sizes kw) [2; 3; 4]));
             ("dense_layer_dims",
              Ints (or_default (dense_layer_dims kw) [512; 256]));
             ("dropout", Float (or_default (dropout kw) 0.4%float))]%string
        /\ exists rate after rest,
             dropout_rate g = Some rate
             /\ tr = (map layer_call (layers_to_concatenate g (signature kw)
                                      ++ layers_from_dropout g (signature kw) rate)
                      ++ [compile (network g (signature kw) rate) "adam"
                            "sparse_categorical_crossentropy"
                            ["accuracy"%string];
                          print d])
                     ++ after
             /\ after ++ rest
                = [reset_states (network g (signature kw) rate);
                   fit (network g (signature kw) rate) (train_x g) (train_y g)
                     (hp_epochs (signature kw))]).
Proof.
  intros H. split.
  - intros m x y ep Hin.
    destruct (call_run_fit _ _ _ _ _ _ _ _ H Hin) as (rate & _ & _ & ->).
    unfold whole_trace. apply in_or_app. right. right. now left.
  - intros d Hin. exact (call_run_print _ _ _ _ _ H Hin).
Qed.

(** What a call that raises has left: no fit. *)
Lemma call_run_raised_no_fit (g : namespace) (kw : keywords) (e : exception)
  (tr : list event) (m : Model) (x : list (list Z)) (y : list Z) (ep : Z) :
  call_run g kw = (Raise e, tr) -> ~ In (fit m x y ep) tr.
Proof.
  intros H Hin.
  destruct (call_run_fit _ _ _ _ _ _ _ _ H Hin) as (rate & _ & Hr & _).
  discriminate.
Qed.

(** With [dropout_rate] unbound, and Keras accepting the layers up to the
    concatenation, a call stops at the dropout. *)
Lemma call_run_unbound (g : namespace) (kw : keywords) :
  dropout_rate g = None ->
  Forall (fun q => refuses q = None)
    (map fst (asks_to_concatenate g (signature kw))) ->
  call_run g kw
  = (Raise NameError, map layer_call (layers_to_concatenate g (signature kw))).
Proof.
  intros Hg Hall. rewrite Forall_map in Hall.
  rewrite call_run_parts, (perform_accepted refuses _ _ Hall), Hg.
  cbn [and_on app]. now rewrite events_to_concatenate.
Qed.

End Calls.

(** *** The cells *)

Lemma uses_app (tr1 tr2 : list action) : uses (tr1 ++ tr2) = uses tr1 ++ uses tr2.
Proof. unfold uses. apply flat_map_app. Qed.

Lemma uses_layer_calls (ls : list layer) : uses (map did (map layer_call ls)) = [].
Proof. induction ls as [|l ls IH]; [reflexivity|exact IH]. Qed.

Lemma uses_whole_trace (g : namespace) (hp : hyperparameters) (rate : float) :
  uses (map did (whole_trace g hp rate))
  = [fitted (network g hp rate) (train_x g) (train_y g) (hp_epochs hp)].
Proof.
  unfold whole_trace. rewrite map_app, uses_app, uses_layer_calls. reflexivity.
Qed.

Lemma uses_no_fit (tr : list event) :
  (forall m x y ep, ~ In (fit m x y ep) tr) -> uses (map did tr) = [].
Proof.
  induction tr as [|ev tr IH]; intros Hno; [reflexivity|].
  assert (Htl : uses (map did tr) = []).
  { apply IH. intros m x y ep Hin. apply (Hno m x y ep). now right. }
  destruct ev; cbn [map uses flat_map app]; try exact Htl.
  exfalso. eapply Hno. left. reflexivity.
Qed.

Lemma run_cells_cons_inv (c : step) (cs : list step) (k k' : kernel)
  (rs : list (result unit)) (tr : list action) :
  run_cells (c :: cs) k = (rs, k', tr) ->
  exists r k1 tr1 rs' tr2,
    c k = (r, k1, tr1) /\ run_cells cs k1 = (rs', k', tr2)
    /\ rs = r :: rs' /\ tr = tr1 ++ tr2.
Proof.
  cbn [run_cells]. destruct (c k) as [[r k1] tr1].
  destruct (run_cells cs k1) as [[rs' k2] tr2] eqn:E. intros [= <- <- <-].
  exists r, k1, tr1, rs', tr2. repeat split; [exact E].
Qed.

Section Cells.

Variable refuses : request -> option exception.

#[local] Abbreviation assign_run := (assign_run refuses).
#[local] Abbreviation evaluate_it := (evaluate_it refuses).
#[local] Abbreviation evaluate_dev := (evaluate_dev refuses).
#[local] Abbreviation evaluate_test := (evaluate_test refuses).
#[local] Abbreviation test_cell := (test_cell refuses).
#[local] Abbreviation fit_cell := (fit_cell refuses).
#[local] Abbreviation evaluate_cell := (evaluate_cell refuses).
#[local] Abbreviation tuning_section := (tuning_section refuses).
#[local] Abbreviation cells := (cells refuses).

Lemma assign_run_returns (n : nat) (kw : keywords) (k k1 : kernel)
  (tr1 : list action) :
  assign_run n kw k = (Ok tt, k1, tr1) ->
  exists rate,
    dropout_rate (globals k) = Some rate
    /\ k1 = bind_tuned n (network (globals k) (signature kw) rate) k
    /\ uses tr1
       = [fitted (network (globals k) (signature kw) rate)
            (train_x (globals k)) (train_y (globals k))
            (hp_epochs (signature kw))].
Proof.
  unfold Checked.assign_run.
  destruct (call_run refuses (globals k) kw) as [[m|e] tr0] eqn:E;
    [|discriminate].
  intros [= <- <-].
  apply call_run_Ok in E as (rate & Hg & -> & -> & _).
  exists rate. split; [exact Hg|]. split; [reflexivity|].
  apply uses_whole_trace.
Qed.

Lemma assign_run_raises (n : nat) (kw : keywords) (k k1 : kernel)
  (e : exception) (tr1 : list action) :
  assign_run n kw k = (Raise e, k1, tr1) -> k1 = k /\ uses tr1 = [].
Proof.
  unfold Checked.assign_run.
  destruct (call_run refuses (globals k) kw) as [[m|e0] tr0] eqn:E;
    [discriminate|].
  intros [= _ <- <-]. split; [reflexivity|].
  apply uses_no_fit. intros m x y ep.
  exact (call_run_raised_no_fit refuses _ _ _ _ m x y ep E).
Qed.

Lemma evaluate_it_cases (m : Model) (x : list (list Z)) (y : list Z)
  (k k1 : kernel) (r : result unit) (tr1 : list action) :
  evaluate_it m x y k = (r, k1, tr1) ->
  k1 = k
  /\ ((r = Ok tt /\ tr1 = [evaluate m x y])
      \/ (exists e, refuses (ask_evaluate m x y) = Some e
                    /\ r = Raise e /\ tr1 = [])).
Proof.
  unfold Checked.evaluate_it.
  destruct (refuses (ask_evaluate m x y)) as [e|]; intros [= <- <- <-];
    (split; [reflexivity|]).
  - right. now exists e.
  - now left.
Qed.

Lemma evaluate_it_returns (m : Model) (x : list (list Z)) (y : list Z)
  (k k1 : kernel) (tr1 : list action) :
  evaluate_it m x y k = (Ok tt, k1, tr1) -> k1 = k /\ tr1 = [evaluate m x y].
Proof.
  intros H. apply evaluate_it_cases in H as [-> [[_ ->]|(e & _ & He & _)]];
    [now split|discriminate].
Qed.

(** A tuning call and the evaluation after it, both gone through. *)
Lemma tuning_pair (n : nat) (kw : keywords) (cs : list step) (k k' : kernel)
  (rs : list (result unit)) (tr : list action) :
  run_cells (assign_run n kw :: evaluate_dev n :: cs) k
  = (Ok tt :: Ok tt :: rs, k', tr) ->
  exists rate tr',
    dropout_rate (globals k) = Some rate
    /\ run_cells cs (bind_tuned n (network (globals k) (signature kw) rate) k)
       = (rs, k', tr')
    /\ uses tr
       = [fitted (network (globals k) (signature kw) rate)
            (train_x (globals k)) (train_y (globals k))
            (hp_epochs (signature kw));
          evaluated (network (globals k) (signature kw) rate) (dev_x k) (dev_y k)]
         ++ uses tr'.
Proof.
  intros H.
  apply run_cells_cons_inv in H as (r1 & k1 & tr1 & rs1 & tr1' & E1 & H & Hrs & ->).
  injection Hrs as <- <-.
  apply run_cells_cons_inv in H as (r2 & k2 & tr2 & rs2 & tr2' & E2 & H & Hrs & ->).
  injection Hrs as <- <-.
  apply assign_run_returns in E1 as (rate & Hg & -> & Hu).
  unfold Checked.evaluate_dev, lookup_tuned in E2.
  cbn [bind_tuned name_tuned find fst snd] in E2. rewrite Nat.eqb_refl in E2.
  apply evaluate_it_returns in E2 as [-> ->].
  exists rate, tr2'. split; [exact Hg|]. split; [exact H|].
  rewrite !uses_app, Hu. reflexivity.
Qed.

(** The cell of the test set, gone through. *)
Lemma test_cell_returns (cs : list step) (k k' : kernel)
  (rs : list (result unit)) (tr : list action) :
  run_cells (test_cell :: cs) k = (Ok tt :: rs, k', tr) ->
  exists m5 m7 m8 tr',
    lookup_tuned 5 k = Some m5 /\ lookup_tuned 7 k = Some m7
    /\ lookup_tuned 8 k = Some m8
    /\ run_cells cs k = (rs, k', tr')
    /\ uses tr
       = [evaluated m5 (test_x k) (test_y k); evaluated m7 (test_x k) (test_y k);
          evaluated m8 (test_x k) (test_y k)] ++ uses tr'.
Proof.
  intros H.
  apply run_cells_cons_inv in H as (r1 & k1 & tr1 & rs1 & tr1' & E1 & H & Hrs & ->).
  injection Hrs as <- <-.
  unfold Checked.test_cell, and_then, Checked.evaluate_test in E1.
  destruct (lookup_tuned 5 k) as [m5|]; [|discriminate].
  destruct (evaluate_it m5 (test_x k) (test_y k) k) as [[[[]|e5] k5] tr5] eqn:E5;
    [|discriminate].
  apply evaluate_it_returns in E5 as [-> ->].
  destruct (lookup_tuned 7 k) as [m7|]; [|discriminate].
  destruct (evaluate_it m7 (test_x k) (test_y k) k) as [[[[]|e7] k7] tr7] eqn:E7;
    [|discriminate].
  apply evaluate_it_returns in E7 as [-> ->].
  destruct (lookup_tuned 8 k) as [m8|]; [|discriminate].
  destruct (evaluate_it m8 (test_x k) (test_y k) k) as [[[[]|e8] k8] tr8] eqn:E8;
    [|discriminate].
  apply evaluate_it_returns in E8 as [-> ->].
  injection E1 as <- <-.
  exists m5, m7, m8, tr1'. repeat (split; [reflexivity|]).
  split; [exact H|]. rewrite uses_app. reflexivity.
Qed.

Ltac pair_step H rate Hg Hu :=
  let tr' := fresh "tr" in
  apply tuning_pair in H as (rate & tr' & Hg & H & Hu);
  cbn [bind_tuned globals dev_x dev_y test_x test_y] in Hg, H, Hu.


(** The cells in a kernel with nothing bound. *)
Lemma assign_run_unbound (n : nat) (kw : keywords) (k : kernel) :
  dropout_rate (globals k) = None ->
  Forall (fun q => refuses q = None)
    (map fst (asks_to_concatenate (globals k) (signature kw))) ->
  assign_run n kw k
  = (Raise NameError, k,
     map did (map layer_call (layers_to_concatenate (globals k) (signature kw)))).
Proof.
  intros Hg Hall. unfold Checked.assign_run.
  now rewrite (call_run_unbound refuses _ _ Hg Hall).
Qed.

Lemma evaluate_dev_unbound (n : nat) (k : kernel) :
  name_tuned k = [] -> evaluate_dev n k = (Raise NameError, k, []).
Proof.
  intros Ht. unfold Checked.evaluate_dev, lookup_tuned. now rewrite Ht.
Qed.

Lemma test_cell_unbound (k : kernel) :
  name_tuned k = [] -> test_cell k = (Raise NameError, k, []).
Proof.
  intros Ht.
  unfold Checked.test_cell, and_then, Checked.evaluate_test, lookup_tuned.
  now rewrite Ht.
Qed.

(** X14.  In a kernel as the data cell leaves it, with [dropout_rate],
    [model] and [model1] to [model9] unbound, and Keras accepting the layers
    up to the concatenation of each of the nine calls: every cell after the
    definition of [run] raises [NameError]; all that is done is the
    construction, by each of the nine calls in turn, of its layers up to
    the concatenation (the input, the embedding, a [Conv1D] and a
    [GlobalMaxPooling1D] for each pair, the concatenation); nothing is
    compiled, printed, fitted or evaluated, and no name is bound. *)
Theorem fresh_kernel_cells_raise (k : kernel) :
  dropout_rate (globals k) = None ->
  name_model k = None ->
  name_tuned k = [] ->
  Forall (fun kw =>
            Forall (fun q => refuses q = None)
              (map fst (asks_to_concatenate (globals k) (signature kw))))
    tuning_cells ->
  run_cells cells k
  = (repeat (Raise NameError) 21, k,
     flat_map (fun kw =>
                 map did (map layer_call
                            (layers_to_concatenate (globals k) (signature kw))))
       tuning_cells).
Proof.
  intros Hg Hm Ht Hall.
  unfold tuning_cells in Hall.
  repeat match goal with
         | H : Forall _ (_ :: _) |- _ =>
             let H1 := fresh "A" in
             let H2 := fresh "R" in
             apply Forall_cons_iff in H as [H1 H2]
         end.
  unfold Checked.cells, Checked.tuning_section.
  cbn [run_cells].
  unfold Checked.fit_cell, Checked.evaluate_cell.
  rewrite Hm. cbv beta iota. rewrite Hm. cbv beta iota.
  repeat (first [ rewrite evaluate_dev_unbound by exact Ht
                | rewrite test_cell_unbound by exact Ht
                | rewrite assign_run_unbound by assumption ];
          cbv beta iota).
  cbn [app repeat flat_map tuning_cells]. rewrite !app_nil_r. reflexivity.
Qed.

(** X15.  A cell [modelN = run(...)] and the cell [modelN.evaluate(dev_x,
    dev_y)] after it, from any kernel.  If the call returns, [dropout_rate]
    was bound, the name holds the model that the call has built and fitted,
    whatever it held before, and the evaluation is of that model on the
    development arrays, or raises what Keras raises.  If the call raises,
    it has fitted nothing and binds nothing: the evaluation raises
    [NameError] if the name was not bound, and otherwise evaluates the model
    that an earlier call left under the name. *)
Theorem evaluate_after_run (k : kernel) (n : nat) (kw : keywords)
  (rs : list (result unit)) (k' : kernel) (tr : list action) :
  run_cells [assign_run n kw; evaluate_dev n] k = (rs, k', tr) ->
  (exists rate,
      dropout_rate (globals k) = Some rate
      /\ let m := network (globals k) (signature kw) rate in
         let fit_ := fitted m (train_x (globals k)) (train_y (globals k))
                       (hp_epochs (signature kw)) in
         k' = bind_tuned n m k
         /\ ((rs = [Ok tt; Ok tt]
              /\ uses tr = [fit_; evaluated m (dev_x k) (dev_y k)])
             \/ (exists e,
                    refuses (ask_evaluate m (dev_x k) (dev_y k)) = Some e
                    /\ rs = [Ok tt; Raise e] /\ uses tr = [fit_])))
  \/ (exists e,
        k' = k
        /\ ((lookup_tuned n k = None
             /\ rs = [Raise e; Raise NameError] /\ uses tr = [])
            \/ (exists stale,
                   lookup_tuned n k = Some stale
                   /\ ((rs = [Raise e; Ok tt]
                        /\ uses tr = [evaluated stale (dev_x k) (dev_y k)])
                       \/ (exists e',
                              refuses (ask_evaluate stale (dev_x k) (dev_y k))
                              = Some e'
                              /\ rs = [Raise e; Raise e'] /\ uses tr = []))))).
Proof.
  intros H.
  apply run_cells_cons_inv in H as (r1 & k1 & tr1 & rs1 & tr1' & E1 & H & -> & ->).
  apply run_cells_cons_inv in H as (r2 & k2 & tr2 & rs2 & tr2' & E2 & H & -> & ->).
  cbn [run_cells] in H. injection H as <- <- <-.
  destruct r1 as [[]|e].
  - left. apply assign_run_returns in E1 as (rate & Hg & -> & Hu).
    exists rate. split; [exact Hg|]. intros m fit_.
    unfold Checked.evaluate_dev, lookup_tuned in E2.
    cbn [bind_tuned name_tuned find fst snd] in E2. rewrite Nat.eqb_refl in E2.
    cbn [dev_x dev_y] in E2.
    apply evaluate_it_cases in E2 as [-> [[-> ->]|(e & He & -> & ->)]].
    + split; [reflexivity|]. left. split; [reflexivity|].
      rewrite !uses_app, Hu. reflexivity.
    + split; [reflexivity|]. right. exists e. split; [exact He|].
      split; [reflexivity|]. rewrite !uses_app, Hu. reflexivity.
  - right. exists e. apply assign_run_raises in E1 as [-> Hu].
    unfold Checked.evaluate_dev in E2.
    destruct (lookup_tuned n k) as [stale|].
    + apply evaluate_it_cases in E2 as [-> [[-> ->]|(e' & He & -> & ->)]];
        (split; [reflexivity|]); right; exists stale; (split; [reflexivity|]).
      * left. split; [reflexivity|]. rewrite !uses_app, Hu. reflexivity.
      * right. exists e'. split; [exact He|]. split; [reflexivity|].
        rewrite !uses_app, Hu. reflexivity.
    + injection E2 as <- <- <-. split; [reflexivity|]. left.
      split; [reflexivity|]. split; [reflexivity|].
      rewrite !uses_app, Hu. reflexivity.
Qed.

End Cells.

(** *** Closed instances *)

Lemma accepting_all (qs : list request) : Forall (fun q => accepting q = None) qs.
Proof. apply Forall_forall. intros q _. reflexivity. Qed.


Lemma run_prints_before_fit_witness :
  let g := sst_namespace (Some 0.8%float) in
  let tr := whole_trace g (signature no_keywords) 0.8%float in
  (forall m x y ep,
      In (fit m x y ep) tr -> In (print (configuration (signature no_keywords))) tr)
  /\ (forall d,
        In (print d) tr ->
        d = [("epochs", Int 10); ("embed_dim", Int 5);
             ("num_filters", Ints [2; 2; 2]); ("kernel_sizes", Ints [2; 3; 4]);
             ("dense_layer_dims", Ints [512; 256]);
             ("dropout", Float 0.4%float)]%string
        /\ exists rate after rest,
             dropout_rate g = Some rate
             /\ tr = (map layer_call
                        (layers_to_concatenate g (signature no_keywords)
                         ++ layers_from_dropout g (signature no_keywords) rate)
                      ++ [compile (network g (signature no_keywords) rate) "adam"
                            "sparse_categorical_crossentropy"
                            ["accuracy"%string];
                          print d])
                     ++ after
             /\ after ++ rest
                = [reset_states (network g (signature no_keywords) rate);
                   fit (network g (signature no_keywords) rate) (train_x g)
                     (train_y g) (hp_epochs (signature no_keywords))]).
Proof.
  intros g tr.
  apply (run_prints_before_fit accepting g no_keywords
           (Ok (network g (signature no_keywords) 0.8%float)) tr).
  vm_compute. reflexivity.
Defined.


Lemma fresh_kernel_cells_raise_witness :
  let k := sst_kernel None in
  run_cells (cells accepting) k
  = (repeat (Raise NameError) 21, k,
     flat_map (fun kw =>
                 map did (map layer_call
                            (layers_to_concatenate (globals k) (signature kw))))
       tuning_cells).
Proof.
  intros k.
  apply (fresh_kernel_cells_raise accepting k); try reflexivity.
  apply Forall_forall. intros kw _. apply accepting_all.
Defined.

Lemma evaluate_after_run_witness :
  let k := bind_tuned 3 (network (sst_namespace (Some 0.8%float))
                           (signature model1) 0.8%float)
             (sst_kernel (Some 0.8%float)) in
  let out := run_cells [assign_run refusing_fit 3 model3;
                        evaluate_dev refusing_fit 3] k in
  fst (fst out) = [Raise ValueError; Ok tt]
  /\ snd (fst out) = k
  /\ uses (snd out)
     = [evaluated (network (sst_namespace (Some 0.8%float))
                     (signature model1) 0.8%float) (dev_x k) (dev_y k)].
Proof.
  intros k out.
  destruct (evaluate_after_run refusing_fit k 3 model3
              (fst (fst out)) (snd (fst out)) (snd out))
    as [(rate & _ & _ & [[Hrs _]|(e & _ & Hrs & _)])
       |(e & Hk & [(Hl & _)|(stale & Hl & [[Hrs Hu]|(e' & He & _)])])].
  - vm_compute. reflexivity.
  - discriminate Hrs.
  - discriminate Hrs.
  - discriminate Hl.
  - injection Hl as <-. split; [|split; [exact Hk|exact Hu]].
    vm_compute. reflexivity.
  - injection Hl as <-. discriminate He.
Defined.

End CheckedSpec.

(** ** The failures of the two notebooks *)

Module NotebooksSpec.

Import PythonFacts MLFairness Reading CNN.

Section Numbers.

Context {float64 float32 : Type}.
Variable float : str -> option float64.
Variable np_float32 : float64 -> float32.

#[local] Abbreviation load_embeddings := (load_embeddings float np_float32).
#[local] Abbreviation load_embeddings_on := (load_embeddings_on float np_float32).

(** [load_embeddings] on a file system is [load_embeddings_on] the reading
    of the file. *)
Lemma load_embeddings_reading (fs : file_system) (filename : str) :
  load_embeddings fs filename = load_embeddings_on (reading_of fs filename).
Proof.
  unfold MLFairness.load_embeddings, Reading.load_embeddings_on, reading_of, open.
  destruct (fs filename); reflexivity.
Qed.

(** Lines that are read: the table, or [ValueError], or the exception that
    ends the reading. *)
Lemma load_embeddings_on_lines (lines : list str) (ending : option exception) :
  match load_embeddings_on (yields lines ending) with
  | Ok _ => ending = None
  | Raise e => e = ValueError \/ ending = Some e
  end.
Proof.
  unfold Reading.load_embeddings_on, enumerate.
  rewrite (MLFairnessSpec.loop_retained float np_float32 lines).
  destruct (comprehension (parse_row float np_float32) (retained lines))
    as [rs|e] eqn:Hrows; cbn [bind app].
  - destruct ending as [e|]; [now right|].
    destruct (np_vstack (map snd rs)) as [arr|e] eqn:Harr; cbn [bind].
    + destruct (pd_DataFrame arr (map fst rs)) as [t|e] eqn:Ht; [reflexivity|].
      left. exact (MLFairnessSpec.pd_DataFrame_raises_only _ _ _ Ht).
    + left. exact (MLFairnessSpec.np_vstack_raises_only _ _ Harr).
  - left. revert Hrows. apply raises_only_comprehension.
    apply MLFairnessSpec.parse_row_raises_only.
Qed.


End Numbers.


End NotebooksSpec.
